(** * twocaptcha: a shallow embedding of [twocaptcha.go]

    The development follows the Go source top to bottom: the package-level
    tables, [CaptchaInstance] and [captchaResponse], the helpers [checkError],
    [keyInMap] and [stringInSlice], then [NewInstance] and [SolveCaptcha].

    Network calls and sleeps are the only effects of the package.  They are
    modelled by a trace of events that every function threads explicitly; the
    remote service is a function [Do] from the trace so far and the requested
    URL to the response body, and [encoding/json]'s [Unmarshal] is a parameter
    of the development.  Loops that the source leaves unbounded take a fuel
    argument and report [OutOfFuel] when it is used up. *)

From Stdlib Require Import ZArith String Ascii List Bool Lia.
From stdpp Require Import base option strings gmap.
Import ListNotations.

Local Open Scope Z_scope.
Local Open Scope list_scope.

(** ** Go values *)

(** [errors.New]: an error value is its message; a nil [error] is [None]. *)
Inductive error : Type :=
| errors_New (msg : string).

Definition error_eqb (a b : error) : bool :=
  match a, b with errors_New x, errors_New y => String.eqb x y end.

(** The zero value of a Go string. *)
Definition empty : string := EmptyString.

(** A [map[string]string] read at a key: the zero value when absent. *)
Definition index (m : gmap string string) (key : string) : string :=
  default empty (m !! key).

(** ** Package-level tables (lines 13-37) *)

Definition validTypes : list string := ["recaptchaV2"; "recaptchaV3"; "funcaptcha"]%string.
Definition validV3Scores : list string := [".1"; ".3"; ".9"]%string.
Definition capRequestURL : string := "https://2captcha.com/in.php?json=1".
Definition capResultURL : string := "https://2captcha.com/res.php?json=1".

(** [captchaErrors], entry by entry in the order of the literal (the entry of
    line 19 is read with the comma the literal lacks there). *)
Definition captchaErrors : list (string * error) :=
  [ ("CAPCHA_NOT_READY", errors_New "handled by program");
    ("ERROR_NO_SLOT_AVAILABLE", errors_New "handled by program");
    ("ERROR_WRONG_USER_KEY", errors_New "invalidly formatted api key");
    ("ERROR_KEY_DOES_NOT_EXIST", errors_New "invalid api key");
    ("ERROR_ZERO_BALANCE", errors_New "[in] empty account balance");
    ("IP_BANNED", errors_New "[in] ip banned, contact 2captcha");
    ("ERROR_BAD_TOKEN_OR_PAGEURL", errors_New "[in] recapv2 invalid token/pageurl");
    ("ERROR_GOOGLEKEY", errors_New "[in] recapv2 invalid sitekey");
    ("MAX_USER_TURN", errors_New "[in] too many requests, temp 10s ban");
    ("CAPTCHA_NOT_READY", errors_New "[res] captcha not ready");
    ("ERROR_CAPTCHA_UNSOLVABLE", errors_New "[res] unsolvable captcha");
    ("ERROR_WRONG_ID_FORMAT", errors_New "[res] invalidly formatted captcha id");
    ("ERROR_WRONG_CAPTCHA_ID", errors_New "[res] invalid captcha id");
    ("ERROR_BAD_DUPLICATES", errors_New "[res] not enough matches");
    ("ERROR_EMPTY_ACTION", errors_New "[res] action not found") ]%string.

(** ** Structs (lines 43-58) *)

(** [*fasthttp.Client]: the package only allocates one and calls [Do] on it. *)
Inductive fasthttp_Client : Type :=
| Client.

Record CaptchaInstance : Type := mkCaptchaInstance {
  APIKey : string;
  CaptchaType : string;
  CreateTaskURL : string;
  SettingInfo : gmap string string;
  HTTPClient : option fasthttp_Client   (* a pointer: [None] is nil *)
}.

(** The zero value a named result starts from (a nil map reads as empty). *)
Definition CaptchaInstance_zero : CaptchaInstance :=
  {| APIKey := empty; CaptchaType := empty; CreateTaskURL := empty;
     SettingInfo := ∅; HTTPClient := None |}.

Record captchaResponse : Type := mkCaptchaResponse {
  Status : Z;
  Response : string
}.

Definition captchaResponse_zero : captchaResponse :=
  {| Status := 0; Response := empty |}.

(** ** Helpers (lines 63-96) *)

(** [checkResponse] ignores the response and answers true. *)
Definition checkResponse (rawResponse : string) : bool := true.

(** The [range] loop of [checkError] over the entries of [captchaErrors]:
    the first entry whose key equals the response ends the loop. *)
Fixpoint range_captchaErrors (entries : list (string * error)) (response : string)
  : string * option error :=
  match entries with
  | [] => (empty, None)
  | (key, value) :: rest =>
      if String.eqb response key then (key, Some value)
      else range_captchaErrors rest response
  end.

Definition checkError (responseStruct : captchaResponse) : string * option error :=
  if Status responseStruct =? 0
  then range_captchaErrors captchaErrors (Response responseStruct)
  else (empty, None).

Definition keyInMap (inputMap : gmap string string) (key : string) : bool :=
  match inputMap !! key with
  | Some _ => true
  | None => false
  end.

Fixpoint stringInSlice (inputSlice : list string) (key : string) : bool :=
  match inputSlice with
  | [] => false
  | item :: rest => if String.eqb key item then true else stringInSlice rest key
  end.

(** ** Standard-library functions the package calls *)

(** [strconv.Atoi] on a 64-bit platform, after its documentation: an optional
    sign, then decimal digits only.  A syntax error gives 0, a value out of
    range gives the nearest [int]; the flag is false when Go returns an
    error.  ([ParseUint] stops at the digit that overflows 64 bits.) *)
Definition digit_of (c : ascii) : option Z :=
  let n := Z.of_N (N_of_ascii c) in
  if (48 <=? n) && (n <=? 57) then Some (n - 48) else None.

Definition maxInt64 : Z := 2 ^ 63 - 1.
Definition minInt64 : Z := - 2 ^ 63.
Definition maxUint64 : Z := 2 ^ 64 - 1.

Inductive uint_result : Type :=
| UintOk (n : Z)
| UintSyntax
| UintRange.

Fixpoint parse_digits (s : string) (n : Z) : uint_result :=
  match s with
  | EmptyString => UintOk n
  | String c rest =>
      match digit_of c with
      | None => UintSyntax
      | Some d => if maxUint64 <? n * 10 + d then UintRange else parse_digits rest (n * 10 + d)
      end
  end.

Definition ParseUint (s : string) : uint_result :=
  match s with
  | EmptyString => UintSyntax
  | _ => parse_digits s 0
  end.

Definition Atoi (s : string) : Z * bool :=
  match s with
  | EmptyString => (0, false)
  | String c rest =>
      let neg := Ascii.eqb c "-" in
      let digits := if neg || Ascii.eqb c "+" then rest else s in
      match ParseUint digits with
      | UintSyntax => (0, false)
      | UintRange => (if neg then minInt64 else maxInt64, false)
      | UintOk un =>
          if negb neg && (maxInt64 <? un) then (maxInt64, false)
          else if neg && (2 ^ 63 <? un) then (minInt64, false)
          else (if neg then - un else un, true)
      end
  end.

(** Multiplication of two [int64] ([time.Duration]) values wraps around. *)
Definition wrap64 (z : Z) : Z := (z + 2 ^ 63) mod 2 ^ 64 - 2 ^ 63.

Definition time_Second : Z := 1000000000.

Definition Duration_mul (a b : Z) : Z := wrap64 (a * b).

(** ** Effects: the trace of requests and sleeps *)

Inductive event : Type :=
| Request (url : string)     (* a GET sent through the client *)
| Sleep (d : Z).             (* a call of [time.Sleep] with this duration *)

Definition trace : Type := list event.

Definition event_is_request (url : string) (e : event) : bool :=
  match e with
  | Request u => String.eqb u url
  | Sleep _ => false
  end.

(** How many requests of the trace went to [url]. *)
Definition requests_to (url : string) (t : trace) : nat :=
  length (List.filter (event_is_request url) t).

(** [t'] continues [t]: a trace only grows. *)
Definition extends (t t' : trace) : Prop := exists rest, t' = t ++ rest.

(** How a piece of a function body ends: it falls through with a value, it
    leaves by [break OuterLoop] with [finalErr] set, it calls through a nil
    client (what [fasthttp] does then is outside this package), or the fuel of
    the model is used up. *)
Inductive flow (A : Type) : Type :=
| Next (a : A)
| BreakOuter (finalErr : error)
| NilClient
| OutOfFuel.
Arguments Next {A} a.
Arguments BreakOuter {A} finalErr.
Arguments NilClient {A}.
Arguments OutOfFuel {A}.

(** How a call of an exported function ends. *)
Inductive outcome (A : Type) : Type :=
| Returned (a : A)
| Stuck          (* reached a call through a nil client *)
| Timeout.       (* the fuel of the model is used up *)
Arguments Returned {A} a.
Arguments Stuck {A}.
Arguments Timeout {A}.

Definition M (A : Type) : Type := trace -> trace * flow A.

Definition ret {A} (a : A) : M A := fun t => (t, Next a).

Definition breakOuter {A} (finalErr : error) : M A := fun t => (t, BreakOuter finalErr).

Definition bind {A B} (m : M A) (k : A -> M B) : M B :=
  fun t =>
    match m t with
    | (t', Next a) => k a t'
    | (t', BreakOuter e) => (t', BreakOuter e)
    | (t', NilClient) => (t', NilClient)
    | (t', OutOfFuel) => (t', OutOfFuel)
    end.

Notation "x <- m ;; k" := (bind m (fun x => k))
  (at level 100, m at next level, right associativity).

(** [time.Sleep]. *)
Definition time_Sleep (d : Z) : M unit := fun t => (t ++ [Sleep d], Next tt).

Definition errUnmarshal : error := errors_New "error unmarshalling (this shouldn't happen)".
Definition errMissingSetting : error := errors_New "missing parameter(s) within settingParams".
Definition errInvalidType : error := errors_New "invalid captcha type".
Definition errMissingV2 : error :=
  errors_New "missing parameter(s) within captchaParams for recaptchaV2".
Definition errMissingV3 : error :=
  errors_New "missing parameter(s) within captchaParams for recaptchaV3".
Definition errInvalidScore : error := errors_New "invalid recaptchaV3 score (.1/.3/.9)".
Definition errMissingFuncaptcha : error :=
  errors_New "missing parameter(s) within captchaParams for funcaptcha".
Definition errSwitchParams : error := errors_New "invalid captcha type (this shouldn't happen)".
Definition errSwitchURL : error := errors_New "invalid captcha type (this shouldn't happen!)".

Section Protocol.

(** [json.Unmarshal(body, &target)]: the struct after decoding [body] into
    [target], or [None] when it returns an error. *)
Variable Unmarshal : string -> captchaResponse -> option captchaResponse.

(** The service behind the client: the body it answers to a GET of a URL,
    given everything that happened before. *)
Variable Do : trace -> string -> string.

(** The request loop the source writes three times (lines 152-169, 220-237
    and 257-274): send the GET, and unless [checkResponse] refuses the
    response, decode the body into [target]; a decoding error sets
    [finalErr] and leaves by [break OuterLoop]. *)
Fixpoint requestLoop (fuel : nat) (client : option fasthttp_Client)
    (requestURL : string) (target : captchaResponse) : M captchaResponse :=
  match fuel with
  | O => fun t => (t, OutOfFuel)
  | S fuel' =>
      match client with
      | None => fun t => (t, NilClient)
      | Some _ =>
          fun t =>
            let body := Do t requestURL in
            let t' := t ++ [Request requestURL] in
            if checkResponse body then
              match Unmarshal body target with
              | None => (t', BreakOuter errUnmarshal)
              | Some decoded => (t', Next decoded)
              end
            else requestLoop fuel' client requestURL target t'
      end
  end.

(** *** NewInstance (lines 101-203) *)

(** The [switch] of lines 120-145.  It falls through with the [finalErr] it
    leaves behind: the score check of line 133 sets [finalErr] and, unlike
    its siblings, does not break. *)
Definition switch_captchaParams (captchaType : string)
    (captchaParams : gmap string string) : M (option error) :=
  if String.eqb captchaType "recaptchaV2" then
    if negb (keyInMap captchaParams "sitekey" && keyInMap captchaParams "siteurl")
    then breakOuter errMissingV2
    else ret None
  else if String.eqb captchaType "recaptchaV3" then
    if negb (keyInMap captchaParams "sitekey" && keyInMap captchaParams "siteurl" &&
             keyInMap captchaParams "action" && keyInMap captchaParams "minscore")
    then breakOuter errMissingV3
    else if negb (stringInSlice validV3Scores (index captchaParams "minscore"))
    then ret (Some errInvalidScore)
    else ret None
  else if String.eqb captchaType "funcaptcha" then
    if negb (keyInMap captchaParams "key" && keyInMap captchaParams "surl" &&
             keyInMap captchaParams "siteurl")
    then breakOuter errMissingFuncaptcha
    else ret None
  else breakOuter errSwitchParams.

(** The [switch] of lines 177-192 on the type stored in the instance; each
    case appends the fields to [requestURL]. *)
Definition switch_requestURL (instanceType : string) (requestURL : string)
    (captchaParams : gmap string string) : M string :=
  if String.eqb instanceType "recaptchaV2" then
    ret (requestURL +:+ "method=userrecaptcha&googlekey=" +:+ index captchaParams "sitekey" +:+
         "&pageurl=" +:+ index captchaParams "siteurl")
  else if String.eqb instanceType "recaptchaV3" then
    ret (requestURL +:+ "method=userrecaptcha&version=v3&googlekey=" +:+
         index captchaParams "sitekey" +:+ "&pageurl=" +:+ index captchaParams "siteurl" +:+
         "&action=" +:+ index captchaParams "action" +:+
         "&min_score=" +:+ index captchaParams "minScore")
  else if String.eqb instanceType "funcaptcha" then
    ret (requestURL +:+ "method=funcaptcha&publickey=" +:+ index captchaParams "sitekey" +:+
         "&surl=" +:+ index captchaParams "surl" +:+ "&pageurl=" +:+ index captchaParams "siteurl")
  else breakOuter errSwitchURL.

(** The body of [OuterLoop]; [instance] is the named result, still at its
    zero value until the assignments of lines 194-198. *)
Definition NewInstance_body (fuel : nat) (instance : CaptchaInstance)
    (apiKey captchaType : string) (captchaParams settingParams : gmap string string)
    : M (CaptchaInstance * option error) :=
  if negb (keyInMap settingParams "timeBetweenReqs") then breakOuter errMissingSetting
  else if negb (stringInSlice validTypes captchaType) then breakOuter errInvalidType
  else
    finalErr <- switch_captchaParams captchaType captchaParams ;;
    let httpClient := Some Client in
    let requestURL := capResultURL +:+ "&action=getBalance&key=" +:+ apiKey in
    balanceStruct <- requestLoop fuel httpClient requestURL captchaResponse_zero ;;
    match snd (checkError balanceStruct) with
    | Some err => breakOuter err
    | None =>
        let createTaskURL := capRequestURL +:+ "&key=" +:+ APIKey instance in
        _requestURL <- switch_requestURL (CaptchaType instance) requestURL captchaParams ;;
        ret ({| APIKey := apiKey; CaptchaType := captchaType;
                CreateTaskURL := createTaskURL; SettingInfo := settingParams;
                HTTPClient := httpClient |}, finalErr)
    end.

Definition NewInstance (fuel : nat) (apiKey captchaType : string)
    (captchaParams settingParams : gmap string string) (t : trace)
    : trace * outcome (CaptchaInstance * option error) :=
  let instance := CaptchaInstance_zero in
  match NewInstance_body fuel instance apiKey captchaType captchaParams settingParams t with
  | (t', Next (populated, finalErr)) => (t', Returned (populated, finalErr))
  | (t', BreakOuter finalErr) => (t', Returned (instance, Some finalErr))
  | (t', NilClient) => (t', Stuck)
  | (t', OutOfFuel) => (t', Timeout)
  end.

(** *** SolveCaptcha (lines 207-291) *)

(** Lines 214-215: the error of [Atoi] is dropped. *)
Definition timeToSleep (instance : CaptchaInstance) : Z :=
  let secondsToSleep := fst (Atoi (index (SettingInfo instance) "timeBetweenReqs")) in
  Duration_mul time_Second secondsToSleep.

Definition checkSolutionURL_for (instance : CaptchaInstance) (captchaTaskID : string) : string :=
  capResultURL +:+ "&key=" +:+ APIKey instance +:+ "&action=get&id=" +:+ captchaTaskID.

(** [CreateTaskLoop] (lines 217-251).  It hands on [taskStruct], which the
    solution loop reads again, and [checkSolutionURL]. *)
Fixpoint CreateTaskLoop (fuel : nat) (instance : CaptchaInstance) (toSleep : Z)
    (taskStruct : captchaResponse) : M (captchaResponse * string) :=
  match fuel with
  | O => fun t => (t, OutOfFuel)
  | S fuel' =>
      taskStruct <- requestLoop (S fuel') (HTTPClient instance) (CreateTaskURL instance)
                      taskStruct ;;
      match checkError taskStruct with
      | (errKey, Some err) =>
          if String.eqb errKey "ERROR_NO_SLOT_AVAILABLE"
          then _ <- time_Sleep toSleep ;; CreateTaskLoop fuel' instance toSleep taskStruct
          else breakOuter err
      | (_, None) =>
          let captchaTaskID := Response taskStruct in
          ret (taskStruct, checkSolutionURL_for instance captchaTaskID)
      end
  end.

(** [SolutionLoop] (lines 253-287).  The check of line 276 is made on
    [taskStruct], as the source has it.  [errKey] is not bound at line 277
    of the source; the model reads it as the first result of that
    [checkError] call, and [SolutionLoop_after_task] below shows that the
    branch is never entered from [SolveCaptcha], whatever it is read as. *)
Fixpoint SolutionLoop (fuel : nat) (instance : CaptchaInstance) (toSleep : Z)
    (taskStruct : captchaResponse) (checkSolutionURL : string) : M string :=
  match fuel with
  | O => fun t => (t, OutOfFuel)
  | S fuel' =>
      solutionStruct <- requestLoop (S fuel') (HTTPClient instance) checkSolutionURL
                          captchaResponse_zero ;;
      match checkError taskStruct with
      | (errKey, Some err) =>
          if String.eqb errKey "CAPCHA_NOT_READY"
          then _ <- time_Sleep toSleep ;;
               SolutionLoop fuel' instance toSleep taskStruct checkSolutionURL
          else breakOuter err
      | (_, None) => ret (Response solutionStruct)
      end
  end.

(** One turn of [OuterLoop] (lines 209-288).  [taskStruct] has no
    declaration in the source; the model declares it where the loop body
    starts, beside [checkSolutionURL], so every turn starts from the zero
    value. *)
Definition OuterLoop_body (fuel : nat) (instance : CaptchaInstance) : M string :=
  let toSleep := timeToSleep instance in
  created <- CreateTaskLoop fuel instance toSleep captchaResponse_zero ;;
  SolutionLoop fuel instance toSleep (fst created) (snd created).

(** [OuterLoop]: nothing leaves it after [break SolutionLoop], so a solved
    turn is followed by the next one; [solution] is the named result, kept
    from turn to turn. *)
Fixpoint OuterLoop (fuel : nat) (instance : CaptchaInstance) (solution : string)
    (t : trace) : trace * outcome (string * option error) :=
  match fuel with
  | O => (t, Timeout)
  | S fuel' =>
      match OuterLoop_body (S fuel') instance t with
      | (t', Next solution') => OuterLoop fuel' instance solution' t'
      | (t', BreakOuter finalErr) => (t', Returned (solution, Some finalErr))
      | (t', NilClient) => (t', Stuck)
      | (t', OutOfFuel) => (t', Timeout)
      end
  end.

Definition SolveCaptcha (fuel : nat) (instance : CaptchaInstance) (t : trace)
    : trace * outcome (string * option error) :=
  OuterLoop fuel instance empty t.

End Protocol.

(** ** Statements about the service and the decoder *)

Section Service.

Variable Unmarshal : string -> captchaResponse -> option captchaResponse.
Variable Do : trace -> string -> string.

(** The request number [n] (counted from 0) sent to [url] is answered with [body]. *)
Definition answers (url : string) (n : nat) (body : string) : Prop :=
  forall t, requests_to url t = n -> Do t url = body.

(** [body] decodes to [r], both fields present, whatever the target held. *)
Definition decodes (body : string) (r : captchaResponse) : Prop :=
  forall target, Unmarshal body target = Some r.

(** [body] does not decode into a [captchaResponse]. *)
Definition malformed (body : string) : Prop :=
  forall target, Unmarshal body target = None.

End Service.

(** A call that returned did so with a non-nil error. *)
Definition returned_error {A} (o : outcome (A * option error)) : Prop :=
  match o with
  | Returned (_, None) => False
  | _ => True
  end.

(** The events [SolveCaptcha] can add to a trace for [instance]: a request to
    its task URL or to a solution URL built from its API key, and a sleep of
    its poll interval. *)
Definition solve_event (instance : CaptchaInstance) (e : event) : Prop :=
  match e with
  | Request url =>
      url = CreateTaskURL instance \/
      exists captchaTaskID, url = checkSolutionURL_for instance captchaTaskID
  | Sleep d => d = timeToSleep instance
  end.

(** [t'] is [t] followed by events that all satisfy [P]. *)
Definition grows_by (P : event -> Prop) (t t' : trace) : Prop :=
  exists rest, t' = t ++ rest /\ Forall P rest.

(** The keys the [switch] of lines 120-145 asks for, and the error it leaves
    with, per captcha type. *)
Definition requiredKeys (captchaType : string) : list string :=
  if String.eqb captchaType "recaptchaV2" then ["sitekey"; "siteurl"]%string
  else if String.eqb captchaType "recaptchaV3"
  then ["sitekey"; "siteurl"; "action"; "minscore"]%string
  else if String.eqb captchaType "funcaptcha" then ["key"; "surl"; "siteurl"]%string
  else [].

Definition errMissingParams (captchaType : string) : error :=
  if String.eqb captchaType "recaptchaV2" then errMissingV2
  else if String.eqb captchaType "recaptchaV3" then errMissingV3
  else if String.eqb captchaType "funcaptcha" then errMissingFuncaptcha
  else errSwitchParams.

(** The specification's reading of step 1 of the validation: the poll
    interval parses, as a count of seconds, to a non-negative duration. *)
Definition spec_parseable_non_negative (interval : string) : bool :=
  let (seconds, ok) := Atoi interval in ok && (0 <=? seconds).

(** ** Test doubles

    A decoder and scripted services for closed examples. *)
Module Mock.

Definition quote : string := String "034" EmptyString.

(** The body the service sends: an object with the two fields, in this layout. *)
Definition json (status : Z) (request : string) : string :=
  "{" +:+ quote +:+ "status" +:+ quote +:+ ":" +:+
  (if status =? 0 then "0" else "1") +:+ "," +:+
  quote +:+ "request" +:+ quote +:+ ":" +:+ quote +:+ request +:+ quote +:+ "}".

Fixpoint strip_prefix (p s : string) : option string :=
  match p, s with
  | EmptyString, _ => Some s
  | String a p', String b s' => if Ascii.eqb a b then strip_prefix p' s' else None
  | String _ _, EmptyString => None
  end.

(** The text up to the closing [quote }] that ends the body. *)
Fixpoint payload (s : string) : option string :=
  match s with
  | EmptyString => None
  | String c rest =>
      if String.eqb s (quote +:+ "}") then Some EmptyString
      else option_map (String c) (payload rest)
  end.

(** Decodes the bodies of [json] (both fields are present, so the target's
    old values are overwritten) and refuses every other body. *)
Definition Unmarshal (body : string) (target : captchaResponse) : option captchaResponse :=
  match strip_prefix ("{" +:+ quote +:+ "status" +:+ quote +:+ ":") body with
  | Some (String d rest) =>
      match digit_of d,
            strip_prefix ("," +:+ quote +:+ "request" +:+ quote +:+ ":" +:+ quote) rest with
      | Some status, Some rest' =>
          option_map (fun request => {| Status := status; Response := request |}) (payload rest')
      | _, _ => None
      end
  | _ => None
  end.

(** A service that answers each URL from a script of its own, in order, and
    with an empty body once the script is used up. *)
Fixpoint script_of (url : string) (scripts : list (string * list string)) : list string :=
  match scripts with
  | [] => []
  | (u, bodies) :: rest => if String.eqb u url then bodies else script_of url rest
  end.

Definition Do (scripts : list (string * list string)) (t : trace) (url : string) : string :=
  nth (requests_to url t) (script_of url scripts) empty.

(** Inputs of the examples. *)
Definition settings : gmap string string := {[ "timeBetweenReqs" := "5" ]}%string.

Definition v2_params : gmap string string :=
  {[ "sitekey" := "SITE"; "siteurl" := "PAGE" ]}%string.

Definition v3_params (minscore : string) : gmap string string :=
  {[ "sitekey" := "SITE"; "siteurl" := "PAGE"; "action" := "login";
     "minscore" := minscore ]}%string.

Definition balance_url : string := capResultURL +:+ "&action=getBalance&key=KEY".

Definition task_url : string :=
  capRequestURL +:+ "&key=KEY&method=userrecaptcha&googlekey=SITE&pageurl=PAGE".

Definition solution_url (captchaTaskID : string) : string :=
  capResultURL +:+ "&key=KEY&action=get&id=" +:+ captchaTaskID.

(** An instance as a caller would fill it in for recaptchaV2. *)
Definition instance : CaptchaInstance :=
  {| APIKey := "KEY"; CaptchaType := "recaptchaV2"; CreateTaskURL := task_url;
     SettingInfo := settings; HTTPClient := Some Client |}.

(** Scripts of the examples: what each URL answers, request after request. *)
Definition no_slot_script : list (string * list string) :=
  [ (task_url, [json 0 "ERROR_NO_SLOT_AVAILABLE"; json 1 "abc123"]) ].

Definition not_ready_script : list (string * list string) :=
  [ (task_url, [json 1 "abc123"]);
    (solution_url "abc123",
     [json 0 "CAPCHA_NOT_READY"; json 0 "CAPCHA_NOT_READY"; json 1 "SOLUTION_TOKEN"]) ].

Definition wrong_id_script : list (string * list string) :=
  [ (task_url, [json 1 "abc123"]);
    (solution_url "abc123", [json 0 "ERROR_WRONG_ID_FORMAT"]) ].

Definition unknown_code_script : list (string * list string) :=
  [ (task_url, [json 0 "ERROR_PAGEURL"]);
    (solution_url "ERROR_PAGEURL", [json 0 "ERROR_PAGEURL"]) ].

End Mock.

(** ** General facts *)

Lemma error_eqb_eq a b : error_eqb a b = true <-> a = b.
Proof.
  destruct a as [x], b as [y]; simpl. rewrite String.eqb_eq.
  split; [intros ->; reflexivity | intros [= ->]; reflexivity].
Qed.

Lemma range_captchaErrors_In entries response key err :
  range_captchaErrors entries response = (key, Some err) ->
  In (key, err) entries /\ response = key.
Proof.
  induction entries as [|[k v] rest IH]; simpl; [discriminate|].
  destruct (String.eqb_spec response k) as [->|Hne].
  - intros [= <- <-]. split; [left; reflexivity | reflexivity].
  - intros H. destruct (IH H) as [Hin Heq]. split; [right; exact Hin | exact Heq].
Qed.

Lemma range_captchaErrors_unknown entries response :
  ~ In response (map fst entries) ->
  range_captchaErrors entries response = (empty, None).
Proof.
  induction entries as [|[k v] rest IH]; simpl; intros Hnot; [reflexivity|].
  destruct (String.eqb_spec response k) as [->|Hne].
  - exfalso. apply Hnot. left; reflexivity.
  - apply IH. intros Hin. apply Hnot. right; exact Hin.
Qed.

Lemma range_captchaErrors_found entries key err :
  List.NoDup (map fst entries) ->
  In (key, err) entries ->
  range_captchaErrors entries key = (key, Some err).
Proof.
  induction entries as [|[k v] rest IH]; simpl; intros Hnd Hin; [destruct Hin|].
  inversion Hnd as [|? ? Hnotin Hnd']; subst.
  destruct (String.eqb_spec key k) as [->|Hne].
  - destruct Hin as [[= ->]|Hin]; [reflexivity|].
    exfalso. apply Hnotin. apply (in_map fst) in Hin. exact Hin.
  - destruct Hin as [[= -> _]|Hin]; [contradiction|]. apply IH; assumption.
Qed.

Lemma captchaErrors_keys_NoDup : List.NoDup (map fst captchaErrors).
Proof.
  unfold captchaErrors. simpl.
  repeat (constructor;
          [simpl; intros H; repeat (destruct H as [H|H]; [discriminate H|]); exact H|]).
  constructor.
Qed.

(** Go ranges over a map in no fixed order.  The keys of [captchaErrors] are
    distinct, so the loop of [checkError] finds the same entry in any order. *)
Lemma range_captchaErrors_any_order entries response :
  Permutation captchaErrors entries ->
  range_captchaErrors entries response = range_captchaErrors captchaErrors response.
Proof.
  intros Hperm.
  assert (Hnd : List.NoDup (map fst entries)).
  { eapply Permutation.Permutation_NoDup; [apply Permutation_map; exact Hperm|].
    exact captchaErrors_keys_NoDup. }
  destruct (range_captchaErrors captchaErrors response) as [key [err|]] eqn:Hce.
  - apply range_captchaErrors_In in Hce. destruct Hce as [Hin ->].
    apply range_captchaErrors_found; [exact Hnd|].
    eapply Permutation_in; eassumption.
  - destruct (range_captchaErrors entries response) as [key' [err'|]] eqn:Hce'.
    + apply range_captchaErrors_In in Hce'. destruct Hce' as [Hin ->].
      apply Permutation_sym in Hperm. apply (Permutation_in _ Hperm) in Hin.
      rewrite (range_captchaErrors_found _ _ _ captchaErrors_keys_NoDup Hin) in Hce.
      discriminate.
    + assert (Hk : forall l k, range_captchaErrors l response = (k, None) -> k = empty).
      { clear. induction l as [|[k0 v0] l IH]; simpl; intros k.
        - intros [= <-]. reflexivity.
        - destruct (String.eqb response k0); [discriminate|apply IH]. }
      rewrite (Hk _ _ Hce), (Hk _ _ Hce'). reflexivity.
Qed.

Lemma checkError_In responseStruct key err :
  checkError responseStruct = (key, Some err) ->
  In (key, err) captchaErrors /\ Response responseStruct = key /\ Status responseStruct = 0.
Proof.
  unfold checkError. destruct (Z.eqb_spec (Status responseStruct) 0) as [Hz|Hz]; [|discriminate].
  intros H. apply range_captchaErrors_In in H. tauto.
Qed.

(** No error of the catalog is one of the errors [NewInstance] makes itself. *)
Lemma catalog_error_not key err (other : error) :
  In (key, err) captchaErrors ->
  forallb (fun kv => negb (error_eqb (snd kv) other)) captchaErrors = true ->
  err <> other.
Proof.
  intros Hin Hall Heq. rewrite forallb_forall in Hall.
  specialize (Hall _ Hin). simpl in Hall.
  apply negb_true_iff in Hall. apply error_eqb_eq in Heq. congruence.
Qed.

Lemma requests_to_app url t1 t2 :
  requests_to url (t1 ++ t2) = (requests_to url t1 + requests_to url t2)%nat.
Proof. unfold requests_to. rewrite List.filter_app, List.length_app. reflexivity. Qed.

Lemma requests_to_request url u :
  requests_to url [Request u] = if String.eqb u url then 1%nat else 0%nat.
Proof.
  unfold requests_to. simpl. destruct (String.eqb u url); reflexivity.
Qed.

Lemma extends_refl t : extends t t.
Proof. exists []. symmetry. apply app_nil_r. Qed.

Lemma extends_trans t1 t2 t3 : extends t1 t2 -> extends t2 t3 -> extends t1 t3.
Proof. intros [r1 ->] [r2 ->]. exists (r1 ++ r2). rewrite <- app_assoc. reflexivity. Qed.

Lemma extends_app t rest : extends t (t ++ rest).
Proof. exists rest. reflexivity. Qed.

Section Facts.

Variable Unmarshal : string -> captchaResponse -> option captchaResponse.
Variable Do : trace -> string -> string.

(** With fuel left and a client, the request loop runs its body once:
    one request, then the decoded struct or the unmarshalling error. *)
Lemma requestLoop_S fuel c url target t :
  requestLoop Unmarshal Do (S fuel) (Some c) url target t =
  (t ++ [Request url],
   match Unmarshal (Do t url) target with
   | Some decoded => Next decoded
   | None => BreakOuter errUnmarshal
   end).
Proof. simpl. destruct (Unmarshal (Do t url) target); reflexivity. Qed.

Lemma requestLoop_nil fuel url target t :
  requestLoop Unmarshal Do (S fuel) None url target t = (t, NilClient).
Proof. reflexivity. Qed.

Lemma requestLoop_extends fuel client url target t :
  extends t (fst (requestLoop Unmarshal Do fuel client url target t)).
Proof.
  destruct fuel as [|fuel]; [apply extends_refl|].
  destruct client as [c|]; [|apply extends_refl].
  rewrite requestLoop_S. apply extends_app.
Qed.

Lemma bind_extends {A B} (m : M A) (k : A -> M B) t0 t :
  extends t0 (fst (m t)) ->
  (forall a t', extends t' (fst (k a t'))) ->
  extends t0 (fst (bind m k t)).
Proof.
  intros Hm Hk. unfold bind. destruct (m t) as [t' [a| e | |]]; simpl in *; try exact Hm.
  eapply extends_trans; [exact Hm | apply Hk].
Qed.

Lemma CreateTaskLoop_extends fuel instance d taskStruct t :
  extends t (fst (CreateTaskLoop Unmarshal Do fuel instance d taskStruct t)).
Proof.
  revert taskStruct t. induction fuel as [|fuel IH]; intros taskStruct t; [apply extends_refl|].
  cbn [CreateTaskLoop]. apply bind_extends; [apply requestLoop_extends|].
  intros a t'. destruct (checkError a) as [errKey [err|]]; [|apply extends_refl].
  destruct (String.eqb errKey "ERROR_NO_SLOT_AVAILABLE"); [|apply extends_refl].
  apply bind_extends; [apply extends_app | intros; apply IH].
Qed.

Lemma SolutionLoop_extends fuel instance d taskStruct url t :
  extends t (fst (SolutionLoop Unmarshal Do fuel instance d taskStruct url t)).
Proof.
  revert t. induction fuel as [|fuel IH]; intros t; [apply extends_refl|].
  cbn [SolutionLoop]. apply bind_extends; [apply requestLoop_extends|].
  intros a t'. destruct (checkError taskStruct) as [errKey [err|]]; [|apply extends_refl].
  destruct (String.eqb errKey "CAPCHA_NOT_READY"); [|apply extends_refl].
  apply bind_extends; [apply extends_app | intros; apply IH].
Qed.

Lemma OuterLoop_body_extends fuel instance t :
  extends t (fst (OuterLoop_body Unmarshal Do fuel instance t)).
Proof.
  unfold OuterLoop_body. apply bind_extends; [apply CreateTaskLoop_extends|].
  intros; apply SolutionLoop_extends.
Qed.

Lemma OuterLoop_extends fuel instance solution t :
  extends t (fst (OuterLoop Unmarshal Do fuel instance solution t)).
Proof.
  revert solution t. induction fuel as [|fuel IH]; intros solution t; [apply extends_refl|].
  cbn [OuterLoop].
  pose proof (OuterLoop_body_extends (S fuel) instance t) as Hb.
  destruct (OuterLoop_body Unmarshal Do (S fuel) instance t) as [t' [s| e | |]];
    simpl in *; try exact Hb.
  eapply extends_trans; [exact Hb | apply IH].
Qed.

(** Every way out of [OuterLoop] sets [finalErr] first. *)
Lemma OuterLoop_returned_error fuel instance solution t :
  returned_error (snd (OuterLoop Unmarshal Do fuel instance solution t)).
Proof.
  revert solution t. induction fuel as [|fuel IH]; intros solution t; [exact I|].
  cbn [OuterLoop].
  destruct (OuterLoop_body Unmarshal Do (S fuel) instance t) as [t' [s| e | |]]; simpl; try exact I.
  apply IH.
Qed.

(** What [CreateTaskLoop] hands on: a struct that [checkError] accepts, and
    the solution URL built from its payload. *)
Lemma CreateTaskLoop_next fuel instance d taskStruct t t' created url :
  CreateTaskLoop Unmarshal Do fuel instance d taskStruct t = (t', Next (created, url)) ->
  snd (checkError created) = None /\ url = checkSolutionURL_for instance (Response created).
Proof.
  revert taskStruct t. induction fuel as [|fuel IH]; intros taskStruct t; [discriminate|].
  cbn [CreateTaskLoop]. unfold bind at 1.
  destruct (requestLoop Unmarshal Do (S fuel) (HTTPClient instance) (CreateTaskURL instance)
              taskStruct t)
    as [t1 [a| e | |]]; try discriminate.
  destruct (checkError a) as [errKey [err|]] eqn:Hce.
  - destruct (String.eqb errKey "ERROR_NO_SLOT_AVAILABLE"); [|discriminate].
    unfold bind, time_Sleep. apply IH.
  - unfold ret. intros [= <- <- <-]. rewrite Hce. split; reflexivity.
Qed.

(** From [SolveCaptcha] the solution loop is entered with a [taskStruct]
    that [checkError] accepts, so the branch of lines 277-282 is dead: one
    request, and the payload of whatever decodes is the solution. *)
Lemma SolutionLoop_after_task fuel instance c d taskStruct url t :
  HTTPClient instance = Some c ->
  snd (checkError taskStruct) = None ->
  SolutionLoop Unmarshal Do (S fuel) instance d taskStruct url t =
  (t ++ [Request url],
   match Unmarshal (Do t url) captchaResponse_zero with
   | Some solutionStruct => Next (Response solutionStruct)
   | None => BreakOuter errUnmarshal
   end).
Proof.
  intros Hc Hok. cbn [SolutionLoop]. unfold bind. rewrite Hc, requestLoop_S.
  destruct (Unmarshal (Do t url) captchaResponse_zero); [|reflexivity].
  destruct (checkError taskStruct) as [errKey [err|]]; [discriminate|reflexivity].
Qed.

End Facts.

(** ** Facts about NewInstance *)

(** The first [switch] touches no trace, and falls through only for one of
    the three valid types. *)
Lemma switch_captchaParams_pure captchaType captchaParams t :
  fst (switch_captchaParams captchaType captchaParams t) = t.
Proof.
  unfold switch_captchaParams.
  repeat match goal with |- context [if ?b then _ else _] => destruct b end; reflexivity.
Qed.

Lemma switch_captchaParams_next captchaType captchaParams t t' finalErr :
  switch_captchaParams captchaType captchaParams t = (t', Next finalErr) ->
  t' = t /\ stringInSlice validTypes captchaType = true.
Proof.
  intros H. split.
  - pose proof (switch_captchaParams_pure captchaType captchaParams t) as Hp.
    rewrite H in Hp. exact Hp.
  - revert H. unfold switch_captchaParams, validTypes. simpl.
    destruct (String.eqb captchaType "recaptchaV2"); [reflexivity|].
    destruct (String.eqb captchaType "recaptchaV3"); [reflexivity|].
    destruct (String.eqb captchaType "funcaptcha"); [reflexivity|].
    discriminate.
Qed.

(** The second [switch] reads the type of the instance, which is still the
    zero value: it takes the default case. *)
Lemma switch_requestURL_zero requestURL captchaParams t :
  switch_requestURL (CaptchaType CaptchaInstance_zero) requestURL captchaParams t =
  (t, BreakOuter errSwitchURL).
Proof. reflexivity. Qed.

Lemma In_validTypes captchaType :
  stringInSlice validTypes captchaType = true ->
  captchaType = "recaptchaV2"%string \/ captchaType = "recaptchaV3"%string \/
  captchaType = "funcaptcha"%string.
Proof.
  unfold validTypes. simpl.
  destruct (String.eqb_spec captchaType "recaptchaV2"); [tauto|].
  destruct (String.eqb_spec captchaType "recaptchaV3"); [tauto|].
  destruct (String.eqb_spec captchaType "funcaptcha"); [tauto|discriminate].
Qed.

(** A key of [requiredKeys] that is absent makes the first [switch] break
    with the error of that type. *)
Lemma switch_captchaParams_missing captchaType captchaParams key t :
  stringInSlice validTypes captchaType = true ->
  In key (requiredKeys captchaType) ->
  keyInMap captchaParams key = false ->
  switch_captchaParams captchaType captchaParams t =
  (t, BreakOuter (errMissingParams captchaType)).
Proof.
  intros Hty Hin Hkey.
  destruct (In_validTypes _ Hty) as [-> | [-> | ->]];
    unfold requiredKeys, errMissingParams, switch_captchaParams in *; simpl in Hin |- *;
    repeat (destruct Hin as [<- | Hin]; [rewrite Hkey; rewrite ?andb_false_r; reflexivity|]);
    destruct Hin.
Qed.

Section NewInstanceFacts.

Variable Unmarshal : string -> captchaResponse -> option captchaResponse.
Variable Do : trace -> string -> string.

Lemma NewInstance_missing_setting fuel apiKey captchaType captchaParams settingParams t :
  keyInMap settingParams "timeBetweenReqs" = false ->
  NewInstance Unmarshal Do fuel apiKey captchaType captchaParams settingParams t =
  (t, Returned (CaptchaInstance_zero, Some errMissingSetting)).
Proof.
  intros H. unfold NewInstance, NewInstance_body. rewrite H. reflexivity.
Qed.

Lemma NewInstance_invalid_type fuel apiKey captchaType captchaParams settingParams t :
  keyInMap settingParams "timeBetweenReqs" = true ->
  stringInSlice validTypes captchaType = false ->
  NewInstance Unmarshal Do fuel apiKey captchaType captchaParams settingParams t =
  (t, Returned (CaptchaInstance_zero, Some errInvalidType)).
Proof.
  intros H1 H2. unfold NewInstance, NewInstance_body. rewrite H1, H2. reflexivity.
Qed.

Lemma NewInstance_missing_param fuel apiKey captchaType captchaParams settingParams key t :
  keyInMap settingParams "timeBetweenReqs" = true ->
  stringInSlice validTypes captchaType = true ->
  In key (requiredKeys captchaType) ->
  keyInMap captchaParams key = false ->
  NewInstance Unmarshal Do fuel apiKey captchaType captchaParams settingParams t =
  (t, Returned (CaptchaInstance_zero, Some (errMissingParams captchaType))).
Proof.
  intros H1 H2 Hin Hkey. unfold NewInstance, NewInstance_body.
  rewrite H1, H2. cbn [negb]. unfold bind.
  rewrite (switch_captchaParams_missing _ _ _ t H2 Hin Hkey). reflexivity.
Qed.

(** Once the first [switch] falls through, one balance request is sent and
    the call returns the zero instance with one of three errors. *)
Lemma NewInstance_validated fuel apiKey captchaType captchaParams settingParams t finalErr :
  keyInMap settingParams "timeBetweenReqs" = true ->
  switch_captchaParams captchaType captchaParams t = (t, Next finalErr) ->
  let requestURL := capResultURL +:+ "&action=getBalance&key=" +:+ apiKey in
  NewInstance Unmarshal Do (S fuel) apiKey captchaType captchaParams settingParams t =
  (t ++ [Request requestURL],
   Returned (CaptchaInstance_zero,
             Some match Unmarshal (Do t requestURL) captchaResponse_zero with
                  | None => errUnmarshal
                  | Some balanceStruct =>
                      match snd (checkError balanceStruct) with
                      | Some err => err
                      | None => errSwitchURL
                      end
                  end)).
Proof.
  intros H1 Hsw requestURL.
  destruct (switch_captchaParams_next _ _ _ _ _ Hsw) as [_ H2].
  unfold NewInstance, NewInstance_body. rewrite H1, H2. cbn [negb].
  unfold bind at 1. rewrite Hsw. unfold bind at 1. rewrite requestLoop_S.
  fold requestURL.
  destruct (Unmarshal (Do t requestURL) captchaResponse_zero) as [balanceStruct|]; [|reflexivity].
  destruct (snd (checkError balanceStruct)) as [err|]; [reflexivity|].
  unfold bind. rewrite switch_requestURL_zero. reflexivity.
Qed.

(** With fuel for the one request, [NewInstance] returns, and what it
    returns is the zero instance with an error. *)
Lemma NewInstance_returns fuel apiKey captchaType captchaParams settingParams t :
  exists t' err,
    NewInstance Unmarshal Do (S fuel) apiKey captchaType captchaParams settingParams t =
    (t', Returned (CaptchaInstance_zero, Some err)).
Proof.
  destruct (keyInMap settingParams "timeBetweenReqs") eqn:H1.
  2:{ eexists _, _. apply NewInstance_missing_setting; exact H1. }
  destruct (switch_captchaParams captchaType captchaParams t) as [t1 r] eqn:Hsw.
  pose proof (switch_captchaParams_pure captchaType captchaParams t) as Hp.
  rewrite Hsw in Hp. simpl in Hp. subst t1.
  destruct r as [finalErr | e | |].
  - eexists _, _. eapply NewInstance_validated; eassumption.
  - unfold NewInstance, NewInstance_body. rewrite H1. cbn [negb].
    destruct (stringInSlice validTypes captchaType); cbn [negb].
    + unfold bind. rewrite Hsw. eexists _, _. reflexivity.
    + eexists _, _. reflexivity.
  - exfalso. revert Hsw. unfold switch_captchaParams.
    repeat match goal with |- context [if ?b then _ else _] => destruct b end; discriminate.
  - exfalso. revert Hsw. unfold switch_captchaParams.
    repeat match goal with |- context [if ?b then _ else _] => destruct b end; discriminate.
Qed.

End NewInstanceFacts.

(** ** The claims about NewInstance *)

(** No return of [NewInstance] carries a populated instance: the body never
    reaches the assignments of lines 194-198. *)
Lemma NewInstance_body_never_next Unmarshal Do fuel apiKey captchaType captchaParams
    settingParams t t' populated :
  NewInstance_body Unmarshal Do fuel CaptchaInstance_zero apiKey captchaType captchaParams
    settingParams t <> (t', Next populated).
Proof.
  unfold NewInstance_body.
  destruct (keyInMap settingParams "timeBetweenReqs"); cbn [negb]; [|discriminate].
  destruct (stringInSlice validTypes captchaType); cbn [negb]; [|discriminate].
  unfold bind at 1.
  destruct (switch_captchaParams captchaType captchaParams t) as [t1 [finalErr| e | |]];
    try discriminate.
  unfold bind at 1. destruct fuel as [|fuel]; [discriminate|].
  rewrite requestLoop_S.
  destruct (Unmarshal _ captchaResponse_zero) as [balanceStruct|]; [|discriminate].
  destruct (snd (checkError balanceStruct)); [discriminate|].
  unfold bind. rewrite switch_requestURL_zero. discriminate.
Qed.

Lemma NewInstance_zero Unmarshal Do fuel apiKey captchaType captchaParams settingParams t t'
    instance finalErr :
  NewInstance Unmarshal Do fuel apiKey captchaType captchaParams settingParams t =
  (t', Returned (instance, finalErr)) ->
  instance = CaptchaInstance_zero /\ finalErr <> None.
Proof.
  unfold NewInstance.
  destruct (NewInstance_body Unmarshal Do fuel CaptchaInstance_zero apiKey captchaType
              captchaParams settingParams t) as [t1 [[populated fe]| e | |]] eqn:Hbody;
    try discriminate.
  - exfalso. exact (NewInstance_body_never_next _ _ _ _ _ _ _ _ _ _ Hbody).
  - intros [= <- <- <-]. split; [reflexivity | discriminate].
Qed.

(** C1 (fails on the code): for every input, also one with every required
    key and a valid score, [NewInstance] returns the zero instance together
    with an error, never a populated instance; at a valid recaptchaV2 input
    whose balance check succeeds the error is the one of the default case of
    line 190, and the only request sent is the balance check. *)
Theorem NewInstance_never_populates :
  (forall Unmarshal Do fuel apiKey captchaType captchaParams settingParams t,
     exists t' err,
       NewInstance Unmarshal Do (S fuel) apiKey captchaType captchaParams settingParams t =
       (t', Returned (CaptchaInstance_zero, Some err))) /\
  NewInstance Mock.Unmarshal (Mock.Do [(Mock.balance_url, [Mock.json 1 "12.5"])]) 1
    "KEY" "recaptchaV2" Mock.v2_params Mock.settings [] =
  ([Request Mock.balance_url], Returned (CaptchaInstance_zero, Some errSwitchURL)).
Proof.
  split.
  - intros. apply NewInstance_returns.
  - vm_compute. reflexivity.
Qed.

(** C10: [NewInstance] returns (one unit of fuel is enough), and whenever it
    returns a non-nil error, the instance it returns is the zero value: no
    field has been populated. *)
Theorem NewInstance_error_zero_instance Unmarshal Do apiKey captchaType captchaParams
    settingParams t :
  (forall fuel, exists t' instance finalErr,
     NewInstance Unmarshal Do (S fuel) apiKey captchaType captchaParams settingParams t =
     (t', Returned (instance, finalErr))) /\
  (forall fuel t' instance err,
     NewInstance Unmarshal Do fuel apiKey captchaType captchaParams settingParams t =
     (t', Returned (instance, Some err)) ->
     instance = CaptchaInstance_zero /\
     APIKey instance = empty /\ CaptchaType instance = empty /\
     CreateTaskURL instance = empty /\ SettingInfo instance = ∅ /\
     HTTPClient instance = None).
Proof.
  split.
  - intros fuel.
    destruct (NewInstance_returns Unmarshal Do fuel apiKey captchaType captchaParams
                settingParams t) as (t' & err & H).
    exists t', CaptchaInstance_zero, (Some err). exact H.
  - intros fuel t' instance err H. apply NewInstance_zero in H. destruct H as [-> _].
    repeat split.
Qed.

Lemma NewInstance_error_zero_instance_witness :
  exists t' instance err,
    NewInstance Mock.Unmarshal
      (Mock.Do [(Mock.balance_url, [Mock.json 0 "ERROR_ZERO_BALANCE"])]) 1
      "KEY" "recaptchaV2" Mock.v2_params Mock.settings [] =
    (t', Returned (instance, Some err)) /\
    err = errors_New "[in] empty account balance" /\
    instance = CaptchaInstance_zero /\
    APIKey instance = empty /\ CaptchaType instance = empty /\
    CreateTaskURL instance = empty /\ SettingInfo instance = ∅ /\
    HTTPClient instance = None.
Proof.
  eexists _, _, _. split; [vm_compute; reflexivity|]. split; [reflexivity|].
  destruct (NewInstance_error_zero_instance Mock.Unmarshal
              (Mock.Do [(Mock.balance_url, [Mock.json 0 "ERROR_ZERO_BALANCE"])])
              "KEY" "recaptchaV2" Mock.v2_params Mock.settings []) as [_ Hzero].
  eapply (Hzero 1%nat). vm_compute. reflexivity.
Defined.

(** The errors the balance phase and the second [switch] can leave with are
    none of the configuration errors. *)
Lemma later_error_not (Unmarshal : string -> captchaResponse -> option captchaResponse)
    (body : string) (other : error) :
  forallb (fun kv => negb (error_eqb (snd kv) other)) captchaErrors = true ->
  errUnmarshal <> other ->
  errSwitchURL <> other ->
  match Unmarshal body captchaResponse_zero with
  | None => errUnmarshal
  | Some balanceStruct =>
      match snd (checkError balanceStruct) with
      | Some err => err
      | None => errSwitchURL
      end
  end <> other.
Proof.
  intros Hcat Hu Hs.
  destruct (Unmarshal body captchaResponse_zero) as [balanceStruct|]; [|exact Hu].
  destruct (checkError balanceStruct) as [key [err|]] eqn:Hce; simpl; [|exact Hs].
  apply checkError_In in Hce. destruct Hce as [Hin _].
  eapply catalog_error_not; eassumption.
Qed.

(** C4 (fails on the code): with recaptchaV3, every required key present and
    a score outside [validV3Scores], [NewInstance] does not stop at the score
    check: it sends the balance request, and the error it returns is not the
    invalid-score error. *)
Theorem NewInstance_invalid_score_not_reported Unmarshal Do fuel apiKey captchaParams
    settingParams t :
  keyInMap settingParams "timeBetweenReqs" = true ->
  keyInMap captchaParams "sitekey" = true ->
  keyInMap captchaParams "siteurl" = true ->
  keyInMap captchaParams "action" = true ->
  keyInMap captchaParams "minscore" = true ->
  stringInSlice validV3Scores (index captchaParams "minscore") = false ->
  exists err,
    NewInstance Unmarshal Do (S fuel) apiKey "recaptchaV3" captchaParams settingParams t =
    (t ++ [Request (capResultURL +:+ "&action=getBalance&key=" +:+ apiKey)],
     Returned (CaptchaInstance_zero, Some err)) /\
    err <> errInvalidScore.
Proof.
  intros Hset H1 H2 H3 H4 Hscore.
  assert (Hsw : switch_captchaParams "recaptchaV3" captchaParams t =
                (t, Next (Some errInvalidScore))).
  { unfold switch_captchaParams. simpl String.eqb. cbv iota.
    rewrite H1, H2, H3, H4, Hscore. reflexivity. }
  eexists. split.
  - exact (NewInstance_validated Unmarshal Do fuel apiKey _ _ _ t _ Hset Hsw).
  - apply later_error_not; [reflexivity | discriminate | discriminate].
Qed.

Lemma NewInstance_invalid_score_not_reported_witness :
  stringInSlice validV3Scores (index (Mock.v3_params ".5") "minscore") = false /\
  exists err,
    NewInstance Mock.Unmarshal (Mock.Do [(Mock.balance_url, [Mock.json 1 "12.5"])]) 1
      "KEY" "recaptchaV3" (Mock.v3_params ".5") Mock.settings [] =
    ([Request Mock.balance_url], Returned (CaptchaInstance_zero, Some err)) /\
    err <> errInvalidScore.
Proof.
  split; [reflexivity|].
  apply (NewInstance_invalid_score_not_reported Mock.Unmarshal
           (Mock.Do [(Mock.balance_url, [Mock.json 1 "12.5"])]) 0 "KEY"
           (Mock.v3_params ".5") Mock.settings []); reflexivity.
Defined.

(** C6, as the specification states it, fails: with a required key missing
    and the poll-interval setting missing as well, the error is the one of the
    settings check, which comes first. *)
Lemma NewInstance_missing_key_and_setting :
  stringInSlice validTypes "recaptchaV2" = true /\
  In "sitekey"%string (requiredKeys "recaptchaV2") /\
  keyInMap (∅ : gmap string string) "sitekey" = false /\
  NewInstance Mock.Unmarshal (Mock.Do []) 1 "KEY" "recaptchaV2" ∅ ∅ [] =
  ([], Returned (CaptchaInstance_zero, Some errMissingSetting)) /\
  error_eqb errMissingSetting (errMissingParams "recaptchaV2") = false.
Proof.
  split; [reflexivity|]. split; [left; reflexivity|]. repeat split.
Qed.

(** C6 (amended): when the settings hold the poll-interval key, for every
    supported type and every required key of that type, a parameter map
    without that key makes [NewInstance] return the missing-parameter error of
    the type, with the zero instance and without any request or sleep. *)
Theorem NewInstance_missing_variant_param Unmarshal Do fuel apiKey captchaType captchaParams
    settingParams key t :
  keyInMap settingParams "timeBetweenReqs" = true ->
  stringInSlice validTypes captchaType = true ->
  In key (requiredKeys captchaType) ->
  keyInMap captchaParams key = false ->
  NewInstance Unmarshal Do fuel apiKey captchaType captchaParams settingParams t =
  (t, Returned (CaptchaInstance_zero, Some (errMissingParams captchaType))).
Proof. apply NewInstance_missing_param. Qed.

Lemma NewInstance_missing_variant_param_witness :
  NewInstance Mock.Unmarshal (Mock.Do []) 1 "KEY" "funcaptcha"
    {[ "key" := "PUBLIC"; "siteurl" := "PAGE" ]}%string Mock.settings [] =
  ([], Returned (CaptchaInstance_zero, Some errMissingFuncaptcha)).
Proof.
  apply (NewInstance_missing_variant_param Mock.Unmarshal (Mock.Do []) 1 "KEY" "funcaptcha"
           {[ "key" := "PUBLIC"; "siteurl" := "PAGE" ]}%string Mock.settings "surl"%string []).
  - reflexivity.
  - reflexivity.
  - simpl. right; left; reflexivity.
  - reflexivity.
Defined.

(** C8, as the specification states it, fails: a poll interval that does not
    parse, or parses to a negative number, passes the settings check; the
    later checks run, up to the balance request. *)
Lemma NewInstance_accepts_unparseable_interval :
  spec_parseable_non_negative "soon" = false /\
  spec_parseable_non_negative "-5" = false /\
  NewInstance Mock.Unmarshal (Mock.Do []) 1 "KEY" "hcaptcha" ∅
    {[ "timeBetweenReqs" := "soon" ]}%string [] =
  ([], Returned (CaptchaInstance_zero, Some errInvalidType)) /\
  NewInstance Mock.Unmarshal (Mock.Do [(Mock.balance_url, [Mock.json 1 "12.5"])]) 1
    "KEY" "recaptchaV2" Mock.v2_params {[ "timeBetweenReqs" := "-5" ]}%string [] =
  ([Request Mock.balance_url], Returned (CaptchaInstance_zero, Some errSwitchURL)).
Proof. repeat split. Qed.

(** C8 (amended): [NewInstance] checks in this order, each check with an error
    of its own.  The settings are accepted exactly when they hold the
    poll-interval key, whatever its value: without the key the call returns
    the missing-setting error, for every type and parameter map, and with the
    key it never does.  Then an unsupported type gives the invalid-type
    error, and only then a missing required key gives the missing-parameter
    error of the type.  None of the three sends a request. *)
Theorem NewInstance_validation_order Unmarshal Do :
  (forall fuel apiKey captchaType captchaParams settingParams t,
     keyInMap settingParams "timeBetweenReqs" = false ->
     NewInstance Unmarshal Do fuel apiKey captchaType captchaParams settingParams t =
     (t, Returned (CaptchaInstance_zero, Some errMissingSetting))) /\
  (forall fuel apiKey captchaType captchaParams settingParams t,
     keyInMap settingParams "timeBetweenReqs" = true ->
     exists t' err,
       NewInstance Unmarshal Do (S fuel) apiKey captchaType captchaParams settingParams t =
       (t', Returned (CaptchaInstance_zero, Some err)) /\
       err <> errMissingSetting) /\
  (forall fuel apiKey captchaType captchaParams settingParams t,
     keyInMap settingParams "timeBetweenReqs" = true ->
     stringInSlice validTypes captchaType = false ->
     NewInstance Unmarshal Do fuel apiKey captchaType captchaParams settingParams t =
     (t, Returned (CaptchaInstance_zero, Some errInvalidType))) /\
  (forall fuel apiKey captchaType captchaParams settingParams key t,
     keyInMap settingParams "timeBetweenReqs" = true ->
     stringInSlice validTypes captchaType = true ->
     In key (requiredKeys captchaType) ->
     keyInMap captchaParams key = false ->
     NewInstance Unmarshal Do fuel apiKey captchaType captchaParams settingParams t =
     (t, Returned (CaptchaInstance_zero, Some (errMissingParams captchaType))) /\
     errMissingParams captchaType <> errMissingSetting /\
     errMissingParams captchaType <> errInvalidType) /\
  errMissingSetting <> errInvalidType.
Proof.
  split; [intros; apply NewInstance_missing_setting; assumption|].
  split.
  { intros fuel apiKey captchaType captchaParams settingParams t Hset.
    destruct (stringInSlice validTypes captchaType) eqn:Hty.
    2:{ eexists _, _. split; [apply NewInstance_invalid_type; assumption|discriminate]. }
    destruct (switch_captchaParams captchaType captchaParams t) as [t1 r] eqn:Hsw.
    pose proof (switch_captchaParams_pure captchaType captchaParams t) as Hp.
    rewrite Hsw in Hp. simpl in Hp. subst t1.
    destruct r as [finalErr | e | |].
    - eexists _, _. split.
      + exact (NewInstance_validated Unmarshal Do fuel apiKey _ _ _ t _ Hset Hsw).
      + apply later_error_not; [reflexivity | discriminate | discriminate].
    - exists t, e. split.
      + unfold NewInstance, NewInstance_body. rewrite Hset, Hty. cbn [negb].
        unfold bind. rewrite Hsw. reflexivity.
      + revert Hsw. unfold switch_captchaParams.
        repeat match goal with |- context [if ?b then _ else _] => destruct b end;
          intros [= <-]; discriminate.
    - exfalso. revert Hsw. unfold switch_captchaParams.
      repeat match goal with |- context [if ?b then _ else _] => destruct b end; discriminate.
    - exfalso. revert Hsw. unfold switch_captchaParams.
      repeat match goal with |- context [if ?b then _ else _] => destruct b end; discriminate. }
  split; [intros; apply NewInstance_invalid_type; assumption|].
  split; [|discriminate].
  intros fuel apiKey captchaType captchaParams settingParams key t Hset Hty Hin Hkey.
  split; [apply NewInstance_missing_param with (key := key); assumption|].
  destruct (In_validTypes _ Hty) as [-> | [-> | ->]]; split; discriminate.
Qed.

Lemma NewInstance_validation_order_witness :
  NewInstance Mock.Unmarshal (Mock.Do []) 1 "KEY" "hcaptcha" ∅ ∅ [] =
  ([], Returned (CaptchaInstance_zero, Some errMissingSetting)) /\
  (exists t' err,
     NewInstance Mock.Unmarshal (Mock.Do []) 1 "KEY" "recaptchaV2" Mock.v2_params
       {[ "timeBetweenReqs" := "soon" ]}%string [] =
     (t', Returned (CaptchaInstance_zero, Some err)) /\ err <> errMissingSetting) /\
  NewInstance Mock.Unmarshal (Mock.Do []) 1 "KEY" "hcaptcha" ∅ Mock.settings [] =
  ([], Returned (CaptchaInstance_zero, Some errInvalidType)) /\
  NewInstance Mock.Unmarshal (Mock.Do []) 1 "KEY" "recaptchaV3" Mock.v2_params
    Mock.settings [] =
  ([], Returned (CaptchaInstance_zero, Some errMissingV3)).
Proof.
  destruct (NewInstance_validation_order Mock.Unmarshal (Mock.Do []))
    as (Habsent & Hpresent & Htype & Hkey & _).
  split; [apply Habsent; reflexivity|].
  split; [apply Hpresent; reflexivity|].
  split; [apply Htype; reflexivity|].
  apply (Hkey 1%nat "KEY"%string "recaptchaV3"%string Mock.v2_params Mock.settings
           "action"%string []).
  - reflexivity.
  - reflexivity.
  - simpl. right; right; left; reflexivity.
  - reflexivity.
Defined.

(** ** Facts about SolveCaptcha *)

Section SolveCaptchaFacts.

Variable Unmarshal : string -> captchaResponse -> option captchaResponse.
Variable Do : trace -> string -> string.

(** One pass of [CreateTaskLoop], by what the response decodes to. *)
Lemma CreateTaskLoop_malformed fuel instance c d taskStruct t :
  HTTPClient instance = Some c ->
  Unmarshal (Do t (CreateTaskURL instance)) taskStruct = None ->
  CreateTaskLoop Unmarshal Do (S fuel) instance d taskStruct t =
  (t ++ [Request (CreateTaskURL instance)], BreakOuter errUnmarshal).
Proof.
  intros Hc Hu. cbn [CreateTaskLoop]. unfold bind.
  rewrite Hc, requestLoop_S, Hu. reflexivity.
Qed.

Lemma CreateTaskLoop_created fuel instance c d taskStruct t decoded :
  HTTPClient instance = Some c ->
  Unmarshal (Do t (CreateTaskURL instance)) taskStruct = Some decoded ->
  snd (checkError decoded) = None ->
  CreateTaskLoop Unmarshal Do (S fuel) instance d taskStruct t =
  (t ++ [Request (CreateTaskURL instance)],
   Next (decoded, checkSolutionURL_for instance (Response decoded))).
Proof.
  intros Hc Hu Hok. cbn [CreateTaskLoop]. unfold bind.
  rewrite Hc, requestLoop_S, Hu.
  destruct (checkError decoded) as [errKey [err|]]; [discriminate|reflexivity].
Qed.

Lemma CreateTaskLoop_no_slot fuel instance c d taskStruct t decoded err :
  HTTPClient instance = Some c ->
  Unmarshal (Do t (CreateTaskURL instance)) taskStruct = Some decoded ->
  checkError decoded = ("ERROR_NO_SLOT_AVAILABLE"%string, Some err) ->
  CreateTaskLoop Unmarshal Do (S fuel) instance d taskStruct t =
  CreateTaskLoop Unmarshal Do fuel instance d decoded
    (t ++ [Request (CreateTaskURL instance); Sleep d]).
Proof.
  intros Hc Hu Hce. cbn [CreateTaskLoop]. unfold bind at 1.
  rewrite Hc, requestLoop_S, Hu, Hce. cbn [String.eqb Ascii.eqb Bool.eqb].
  unfold bind, time_Sleep. rewrite <- app_assoc. reflexivity.
Qed.

Lemma CreateTaskLoop_first_request fuel instance c d taskStruct t :
  HTTPClient instance = Some c ->
  extends (t ++ [Request (CreateTaskURL instance)])
          (fst (CreateTaskLoop Unmarshal Do (S fuel) instance d taskStruct t)).
Proof.
  intros Hc. cbn [CreateTaskLoop]. apply bind_extends.
  - rewrite Hc, requestLoop_S. apply extends_refl.
  - intros a t'. destruct (checkError a) as [errKey [err|]]; [|apply extends_refl].
    destruct (String.eqb errKey "ERROR_NO_SLOT_AVAILABLE"); [|apply extends_refl].
    apply bind_extends; [apply extends_app | intros; apply CreateTaskLoop_extends].
Qed.

(** One turn of [OuterLoop] once the task is created: one poll, and whatever
    it decodes to is the solution of the turn. *)
Lemma OuterLoop_body_created fuel instance c t t1 taskStruct url :
  HTTPClient instance = Some c ->
  CreateTaskLoop Unmarshal Do (S fuel) instance (timeToSleep instance) captchaResponse_zero t =
  (t1, Next (taskStruct, url)) ->
  OuterLoop_body Unmarshal Do (S fuel) instance t =
  (t1 ++ [Request url],
   match Unmarshal (Do t1 url) captchaResponse_zero with
   | Some solutionStruct => Next (Response solutionStruct)
   | None => BreakOuter errUnmarshal
   end).
Proof.
  intros Hc Hcreate. unfold OuterLoop_body, bind. rewrite Hcreate.
  cbn [fst snd]. apply CreateTaskLoop_next in Hcreate. destruct Hcreate as [Hok _].
  apply SolutionLoop_after_task with (c := c); assumption.
Qed.

Lemma OuterLoop_body_first_request fuel instance c t :
  HTTPClient instance = Some c ->
  extends (t ++ [Request (CreateTaskURL instance)])
          (fst (OuterLoop_body Unmarshal Do (S fuel) instance t)).
Proof.
  intros Hc. unfold OuterLoop_body. apply bind_extends.
  - apply CreateTaskLoop_first_request with (c := c). exact Hc.
  - intros; apply SolutionLoop_extends.
Qed.

Lemma OuterLoop_next fuel instance solution t t' solution' :
  OuterLoop_body Unmarshal Do (S fuel) instance t = (t', Next solution') ->
  OuterLoop Unmarshal Do (S fuel) instance solution t =
  OuterLoop Unmarshal Do fuel instance solution' t'.
Proof. intros H. cbn [OuterLoop]. rewrite H. reflexivity. Qed.

Lemma OuterLoop_break fuel instance solution t t' finalErr :
  OuterLoop_body Unmarshal Do (S fuel) instance t = (t', BreakOuter finalErr) ->
  OuterLoop Unmarshal Do (S fuel) instance solution t = (t', Returned (solution, Some finalErr)).
Proof. intros H. cbn [OuterLoop]. rewrite H. reflexivity. Qed.

Lemma OuterLoop_first_request fuel instance c solution t :
  HTTPClient instance = Some c ->
  extends (t ++ [Request (CreateTaskURL instance)])
          (fst (OuterLoop Unmarshal Do (S fuel) instance solution t)).
Proof.
  intros Hc. cbn [OuterLoop].
  pose proof (OuterLoop_body_first_request fuel instance c t Hc) as Hb.
  destruct (OuterLoop_body Unmarshal Do (S fuel) instance t) as [t' [s| e | |]];
    simpl in *; try exact Hb.
  eapply extends_trans; [exact Hb | apply OuterLoop_extends].
Qed.

Lemma OuterLoop_after_body fuel instance solution t t' r :
  OuterLoop_body Unmarshal Do (S fuel) instance t = (t', r) ->
  extends t' (fst (OuterLoop Unmarshal Do (S fuel) instance solution t)).
Proof.
  intros H. cbn [OuterLoop]. rewrite H.
  destruct r as [s| e | |]; simpl; try apply extends_refl.
  apply OuterLoop_extends.
Qed.

(** A solved turn is followed by the next task-creation request. *)
Lemma OuterLoop_goes_on fuel instance c solution solution' t t' :
  HTTPClient instance = Some c ->
  OuterLoop_body Unmarshal Do (S (S fuel)) instance t = (t', Next solution') ->
  extends (t' ++ [Request (CreateTaskURL instance)])
          (fst (OuterLoop Unmarshal Do (S (S fuel)) instance solution t)).
Proof.
  intros Hc Hturn. rewrite (OuterLoop_next _ _ _ _ _ _ Hturn).
  apply OuterLoop_first_request with (c := c). exact Hc.
Qed.

(** The body answered to a poll sent right after a first task-creation
    request, when the first poll of that URL is answered with [body]. *)
Lemma first_poll_answer instance t url body taskBody r rb :
  requests_to (CreateTaskURL instance) t = 0%nat ->
  requests_to url t = 0%nat ->
  answers Do (CreateTaskURL instance) 0 taskBody ->
  answers Do url 0 body ->
  decodes Unmarshal taskBody r ->
  decodes Unmarshal body rb ->
  r <> rb ->
  Do (t ++ [Request (CreateTaskURL instance)]) url = body.
Proof.
  intros Ht Hu Htask Hpoll Hr Hrb Hne. apply Hpoll.
  rewrite requests_to_app, Hu, requests_to_request.
  destruct (String.eqb_spec (CreateTaskURL instance) url) as [Heq|]; [|reflexivity].
  exfalso. apply Hne. rewrite <- Heq in Hpoll.
  rewrite <- (Htask t Ht) in Hr. rewrite <- (Hpoll t Ht) in Hrb.
  specialize (Hr captchaResponse_zero). specialize (Hrb captchaResponse_zero).
  congruence.
Qed.

End SolveCaptchaFacts.

Lemma Mock_Do_answers scripts url n body :
  nth_error (Mock.script_of url scripts) n = Some body ->
  answers (Mock.Do scripts) url n body.
Proof.
  intros H t Hn. unfold Mock.Do. rewrite Hn.
  apply nth_error_nth. exact H.
Qed.

Lemma Mock_Unmarshal_empty : malformed Mock.Unmarshal empty.
Proof. intros target. reflexivity. Qed.

(** ** The claims about SolveCaptcha *)

(** The product of lines 214-215 is the seconds read from the setting, in
    nanoseconds, exactly when it fits 64 bits; otherwise it wraps around. *)
Lemma wrap64_small z : - 2 ^ 63 <= z < 2 ^ 63 -> wrap64 z = z.
Proof. intros H. unfold wrap64. rewrite Z.mod_small; lia. Qed.

Lemma wrap64_range z : - 2 ^ 63 <= wrap64 z < 2 ^ 63.
Proof.
  unfold wrap64. pose proof (Z.mod_pos_bound (z + 2 ^ 63) (2 ^ 64)). lia.
Qed.

Lemma timeToSleep_in_range instance seconds ok :
  Atoi (index (SettingInfo instance) "timeBetweenReqs") = (seconds, ok) ->
  - 9223372036 <= seconds <= 9223372036 ->
  timeToSleep instance = seconds * 1000000000.
Proof.
  intros Hatoi Hrange. unfold timeToSleep, Duration_mul, time_Second.
  rewrite Hatoi. cbn [fst]. rewrite wrap64_small; lia.
Qed.

(** C5, as the specification states it, fails: the settings are accepted
    with any value, and for an interval of 18446744074 seconds, which [Atoi]
    reads without error, the product of line 215 wraps around: the one sleep
    between the two task-creation requests lasts 290448384 nanoseconds, not
    the configured interval. *)
Lemma SolveCaptcha_sleep_wraps_around :
  Atoi "18446744074" = (18446744074, true) /\
  spec_parseable_non_negative "18446744074" = true /\
  SolveCaptcha Mock.Unmarshal (Mock.Do Mock.no_slot_script) 2
    {| APIKey := "KEY"; CaptchaType := "recaptchaV2"; CreateTaskURL := Mock.task_url;
       SettingInfo := {[ "timeBetweenReqs" := "18446744074" ]}%string;
       HTTPClient := Some Client |} [] =
  ([Request Mock.task_url; Sleep 290448384; Request Mock.task_url;
    Request (Mock.solution_url "abc123")],
   Returned (empty, Some errUnmarshal)) /\
  (290448384 =? 18446744074 * 1000000000) = false.
Proof. repeat split. Qed.

(** C5 (amended): for an instance whose poll-interval setting reads, by
    [Atoi], as a number of seconds whose count of nanoseconds fits 64 bits
    (at most 9223372036 seconds either way): when the first task-creation
    request is answered with ERROR_NO_SLOT_AVAILABLE (status 0) and the
    second with task id abc123 (status 1), the task loop sends the request,
    sleeps once, for exactly that number of seconds, sends the request
    again, and builds the solution URL from the result endpoint, the API
    key, action=get and id abc123; that URL is the next request of
    [SolveCaptcha]. *)
Theorem SolveCaptcha_retries_after_no_slot Unmarshal Do fuel instance c seconds ok
    noSlot created t :
  HTTPClient instance = Some c ->
  Atoi (index (SettingInfo instance) "timeBetweenReqs") = (seconds, ok) ->
  - 9223372036 <= seconds <= 9223372036 ->
  requests_to (CreateTaskURL instance) t = 0%nat ->
  answers Do (CreateTaskURL instance) 0 noSlot ->
  answers Do (CreateTaskURL instance) 1 created ->
  decodes Unmarshal noSlot {| Status := 0; Response := "ERROR_NO_SLOT_AVAILABLE" |} ->
  decodes Unmarshal created {| Status := 1; Response := "abc123" |} ->
  CreateTaskLoop Unmarshal Do (S (S fuel)) instance (timeToSleep instance)
    captchaResponse_zero t =
  (t ++ [Request (CreateTaskURL instance); Sleep (seconds * 1000000000);
         Request (CreateTaskURL instance)],
   Next ({| Status := 1; Response := "abc123" |},
         capResultURL +:+ "&key=" +:+ APIKey instance +:+ "&action=get&id=abc123")) /\
  extends
    (t ++ [Request (CreateTaskURL instance); Sleep (seconds * 1000000000);
           Request (CreateTaskURL instance);
           Request (capResultURL +:+ "&key=" +:+ APIKey instance +:+ "&action=get&id=abc123")])
    (fst (SolveCaptcha Unmarshal Do (S (S fuel)) instance t)).
Proof.
  intros Hc Hatoi Hrange Ht Hfirst Hsecond HnoSlot Hcreated.
  rewrite <- (timeToSleep_in_range instance seconds ok Hatoi Hrange).
  set (url := CreateTaskURL instance) in *. set (d := timeToSleep instance).
  assert (Hloop : CreateTaskLoop Unmarshal Do (S (S fuel)) instance d captchaResponse_zero t =
                  (t ++ [Request url; Sleep d; Request url],
                   Next ({| Status := 1; Response := "abc123" |},
                         checkSolutionURL_for instance "abc123"))).
  { rewrite (CreateTaskLoop_no_slot Unmarshal Do _ instance c d _ t
               {| Status := 0; Response := "ERROR_NO_SLOT_AVAILABLE" |}
               (errors_New "handled by program") Hc).
    - rewrite (CreateTaskLoop_created Unmarshal Do _ instance c d _ _
                 {| Status := 1; Response := "abc123" |} Hc).
      + rewrite <- app_assoc. reflexivity.
      + fold url. rewrite (Hsecond (t ++ [Request url; Sleep d])); [apply Hcreated|].
        rewrite requests_to_app, Ht.
        change [Request url; Sleep d] with ([Request url] ++ [Sleep d]).
        rewrite requests_to_app, requests_to_request, String.eqb_refl. reflexivity.
      + reflexivity.
    - fold url. rewrite (Hfirst t Ht). apply HnoSlot.
    - reflexivity. }
  split; [exact Hloop|].
  unfold SolveCaptcha.
  pose proof (OuterLoop_body_created Unmarshal Do _ instance c t _ _ _ Hc Hloop) as Hturn.
  eapply OuterLoop_after_body in Hturn. rewrite <- app_assoc in Hturn. exact Hturn.
Qed.

Lemma SolveCaptcha_retries_after_no_slot_witness :
  CreateTaskLoop Mock.Unmarshal (Mock.Do Mock.no_slot_script) 2 Mock.instance
    (timeToSleep Mock.instance) captchaResponse_zero [] =
  ([Request Mock.task_url; Sleep (5 * 1000000000); Request Mock.task_url],
   Next ({| Status := 1; Response := "abc123" |}, Mock.solution_url "abc123")) /\
  extends
    [Request Mock.task_url; Sleep (5 * 1000000000); Request Mock.task_url;
     Request (Mock.solution_url "abc123")]
    (fst (SolveCaptcha Mock.Unmarshal (Mock.Do Mock.no_slot_script) 2 Mock.instance [])).
Proof.
  apply (SolveCaptcha_retries_after_no_slot Mock.Unmarshal (Mock.Do Mock.no_slot_script) 0
           Mock.instance Client 5 true (Mock.json 0 "ERROR_NO_SLOT_AVAILABLE")
           (Mock.json 1 "abc123") []).
  - reflexivity.
  - reflexivity.
  - lia.
  - reflexivity.
  - apply Mock_Do_answers. reflexivity.
  - apply Mock_Do_answers. reflexivity.
  - intros target. reflexivity.
  - intros target. reflexivity.
Defined.

(** One turn on a created task whose first poll decodes to [polled]: no
    sleep, the payload of the poll is the solution of the turn whatever its
    status, and the next turn sends a new task-creation request. *)
Lemma SolveCaptcha_first_poll_is_solution Unmarshal Do fuel instance c taskBody taskID
    pollBody polled t :
  HTTPClient instance = Some c ->
  requests_to (CreateTaskURL instance) t = 0%nat ->
  requests_to (checkSolutionURL_for instance taskID) t = 0%nat ->
  answers Do (CreateTaskURL instance) 0 taskBody ->
  decodes Unmarshal taskBody {| Status := 1; Response := taskID |} ->
  answers Do (checkSolutionURL_for instance taskID) 0 pollBody ->
  decodes Unmarshal pollBody polled ->
  Status polled = 0 ->
  OuterLoop_body Unmarshal Do (S (S fuel)) instance t =
  (t ++ [Request (CreateTaskURL instance); Request (checkSolutionURL_for instance taskID)],
   Next (Response polled)) /\
  extends
    (t ++ [Request (CreateTaskURL instance); Request (checkSolutionURL_for instance taskID);
           Request (CreateTaskURL instance)])
    (fst (SolveCaptcha Unmarshal Do (S (S fuel)) instance t)).
Proof.
  intros Hc Ht Hu Htask HtaskBody Hpoll HpollBody Hstatus.
  assert (Hloop : CreateTaskLoop Unmarshal Do (S (S fuel)) instance (timeToSleep instance)
                    captchaResponse_zero t =
                  (t ++ [Request (CreateTaskURL instance)],
                   Next ({| Status := 1; Response := taskID |},
                         checkSolutionURL_for instance taskID))).
  { apply CreateTaskLoop_created with (c := c); [exact Hc | | reflexivity].
    rewrite (Htask t Ht). apply HtaskBody. }
  assert (Hturn : OuterLoop_body Unmarshal Do (S (S fuel)) instance t =
                  (t ++ [Request (CreateTaskURL instance);
                         Request (checkSolutionURL_for instance taskID)],
                   Next (Response polled))).
  { rewrite (OuterLoop_body_created Unmarshal Do _ instance c t _ _ _ Hc Hloop).
    rewrite (first_poll_answer Unmarshal Do instance t _ pollBody taskBody
               {| Status := 1; Response := taskID |} polled Ht Hu Htask Hpoll HtaskBody
               HpollBody).
    - rewrite HpollBody, <- app_assoc. reflexivity.
    - intros Heq. rewrite <- Heq in Hstatus. discriminate. }
  split; [exact Hturn|].
  unfold SolveCaptcha.
  pose proof (OuterLoop_goes_on Unmarshal Do fuel instance c empty _ t _ Hc Hturn) as Hnext.
  rewrite <- app_assoc in Hnext. exact Hnext.
Qed.

(** C2 (fails on the code): with a created task whose polls are answered
    CAPCHA_NOT_READY twice and then SOLUTION_TOKEN, the first turn of
    [SolveCaptcha] does not sleep: after the first poll it takes
    "CAPCHA_NOT_READY" as the solution and the next request is a new
    task creation; and no fuel makes the call return a nil error. *)
Theorem SolveCaptcha_not_ready_not_awaited Unmarshal Do fuel instance c taskBody taskID
    notReady solved t :
  HTTPClient instance = Some c ->
  requests_to (CreateTaskURL instance) t = 0%nat ->
  requests_to (checkSolutionURL_for instance taskID) t = 0%nat ->
  answers Do (CreateTaskURL instance) 0 taskBody ->
  decodes Unmarshal taskBody {| Status := 1; Response := taskID |} ->
  answers Do (checkSolutionURL_for instance taskID) 0 notReady ->
  answers Do (checkSolutionURL_for instance taskID) 1 notReady ->
  answers Do (checkSolutionURL_for instance taskID) 2 solved ->
  decodes Unmarshal notReady {| Status := 0; Response := "CAPCHA_NOT_READY" |} ->
  decodes Unmarshal solved {| Status := 1; Response := "SOLUTION_TOKEN" |} ->
  OuterLoop_body Unmarshal Do (S (S fuel)) instance t =
  (t ++ [Request (CreateTaskURL instance); Request (checkSolutionURL_for instance taskID)],
   Next "CAPCHA_NOT_READY"%string) /\
  extends
    (t ++ [Request (CreateTaskURL instance); Request (checkSolutionURL_for instance taskID);
           Request (CreateTaskURL instance)])
    (fst (SolveCaptcha Unmarshal Do (S (S fuel)) instance t)) /\
  (forall fuel', returned_error (snd (SolveCaptcha Unmarshal Do fuel' instance t))).
Proof.
  intros Hc Ht Hu Htask HtaskBody Hp0 _ _ HnotReady _.
  destruct (SolveCaptcha_first_poll_is_solution Unmarshal Do fuel instance c taskBody taskID
              notReady _ t Hc Ht Hu Htask HtaskBody Hp0 HnotReady eq_refl) as [Hturn Hnext].
  split; [exact Hturn|]. split; [exact Hnext|].
  intros fuel'. apply OuterLoop_returned_error.
Qed.

Lemma SolveCaptcha_not_ready_not_awaited_witness :
  OuterLoop_body Mock.Unmarshal (Mock.Do Mock.not_ready_script) 2 Mock.instance [] =
  ([Request Mock.task_url; Request (Mock.solution_url "abc123")],
   Next "CAPCHA_NOT_READY"%string) /\
  extends
    [Request Mock.task_url; Request (Mock.solution_url "abc123"); Request Mock.task_url]
    (fst (SolveCaptcha Mock.Unmarshal (Mock.Do Mock.not_ready_script) 2 Mock.instance [])) /\
  (forall fuel',
     returned_error
       (snd (SolveCaptcha Mock.Unmarshal (Mock.Do Mock.not_ready_script) fuel' Mock.instance []))).
Proof.
  apply (SolveCaptcha_not_ready_not_awaited Mock.Unmarshal (Mock.Do Mock.not_ready_script) 0
           Mock.instance Client (Mock.json 1 "abc123") "abc123"
           (Mock.json 0 "CAPCHA_NOT_READY") (Mock.json 1 "SOLUTION_TOKEN") []).
  - reflexivity.
  - reflexivity.
  - reflexivity.
  - apply Mock_Do_answers. reflexivity.
  - intros target. reflexivity.
  - apply Mock_Do_answers. reflexivity.
  - apply Mock_Do_answers. reflexivity.
  - apply Mock_Do_answers. reflexivity.
  - intros target. reflexivity.
  - intros target. reflexivity.
Defined.

(** The run of the script of C2 to its end: the second task creation finds
    the script used up, and the call returns the unmarshalling error with
    "CAPCHA_NOT_READY" left in [solution]. *)
Example SolveCaptcha_not_ready_run :
  SolveCaptcha Mock.Unmarshal (Mock.Do Mock.not_ready_script) 3 Mock.instance [] =
  ([Request Mock.task_url; Request (Mock.solution_url "abc123"); Request Mock.task_url],
   Returned ("CAPCHA_NOT_READY"%string, Some errUnmarshal)).
Proof. vm_compute. reflexivity. Qed.

(** C3 (fails on the code): with a created task whose poll is answered
    ERROR_WRONG_ID_FORMAT (status 0), the turn does not break: the code is
    taken as the solution of the turn and [SolveCaptcha] goes on to send a
    new task-creation request. *)
Theorem SolveCaptcha_poll_error_not_fatal Unmarshal Do fuel instance c taskBody taskID
    wrongID t :
  HTTPClient instance = Some c ->
  requests_to (CreateTaskURL instance) t = 0%nat ->
  requests_to (checkSolutionURL_for instance taskID) t = 0%nat ->
  answers Do (CreateTaskURL instance) 0 taskBody ->
  decodes Unmarshal taskBody {| Status := 1; Response := taskID |} ->
  answers Do (checkSolutionURL_for instance taskID) 0 wrongID ->
  decodes Unmarshal wrongID {| Status := 0; Response := "ERROR_WRONG_ID_FORMAT" |} ->
  checkError {| Status := 0; Response := "ERROR_WRONG_ID_FORMAT" |} =
  ("ERROR_WRONG_ID_FORMAT"%string, Some (errors_New "[res] invalidly formatted captcha id")) /\
  OuterLoop_body Unmarshal Do (S (S fuel)) instance t =
  (t ++ [Request (CreateTaskURL instance); Request (checkSolutionURL_for instance taskID)],
   Next "ERROR_WRONG_ID_FORMAT"%string) /\
  extends
    (t ++ [Request (CreateTaskURL instance); Request (checkSolutionURL_for instance taskID);
           Request (CreateTaskURL instance)])
    (fst (SolveCaptcha Unmarshal Do (S (S fuel)) instance t)).
Proof.
  intros Hc Ht Hu Htask HtaskBody Hpoll HwrongID.
  split; [reflexivity|].
  exact (SolveCaptcha_first_poll_is_solution Unmarshal Do fuel instance c taskBody taskID
           wrongID _ t Hc Ht Hu Htask HtaskBody Hpoll HwrongID eq_refl).
Qed.

Lemma SolveCaptcha_poll_error_not_fatal_witness :
  checkError {| Status := 0; Response := "ERROR_WRONG_ID_FORMAT" |} =
  ("ERROR_WRONG_ID_FORMAT"%string, Some (errors_New "[res] invalidly formatted captcha id")) /\
  OuterLoop_body Mock.Unmarshal (Mock.Do Mock.wrong_id_script) 2 Mock.instance [] =
  ([Request Mock.task_url; Request (Mock.solution_url "abc123")],
   Next "ERROR_WRONG_ID_FORMAT"%string) /\
  extends
    [Request Mock.task_url; Request (Mock.solution_url "abc123"); Request Mock.task_url]
    (fst (SolveCaptcha Mock.Unmarshal (Mock.Do Mock.wrong_id_script) 2 Mock.instance [])).
Proof.
  apply (SolveCaptcha_poll_error_not_fatal Mock.Unmarshal (Mock.Do Mock.wrong_id_script) 0
           Mock.instance Client (Mock.json 1 "abc123") "abc123"
           (Mock.json 0 "ERROR_WRONG_ID_FORMAT") []).
  - reflexivity.
  - reflexivity.
  - reflexivity.
  - apply Mock_Do_answers. reflexivity.
  - intros target. reflexivity.
  - apply Mock_Do_answers. reflexivity.
  - intros target. reflexivity.
Defined.

(** The run of the script of C3 to its end: three requests, and the error
    returned is the unmarshalling error of the used-up script, not the one
    the catalog maps ERROR_WRONG_ID_FORMAT to. *)
Example SolveCaptcha_wrong_id_run :
  SolveCaptcha Mock.Unmarshal (Mock.Do Mock.wrong_id_script) 3 Mock.instance [] =
  ([Request Mock.task_url; Request (Mock.solution_url "abc123"); Request Mock.task_url],
   Returned ("ERROR_WRONG_ID_FORMAT"%string, Some errUnmarshal)).
Proof. vm_compute. reflexivity. Qed.

(** C7: in each of the three phases a body that does not decode ends the call
    at once with the unmarshalling error, and the request is not sent again.
    For [NewInstance], past the parameter checks: one balance request, then
    the return.  For [SolveCaptcha], at any turn of [OuterLoop] (any trace
    [t] so far, any [solution] so far) and at any retry of the task loop: a
    task-creation or poll request whose body does not decode is the last
    event of the trace, and the call returns the error. *)
Theorem unparseable_response_is_fatal Unmarshal Do :
  (forall fuel apiKey captchaType captchaParams settingParams finalErr t,
     keyInMap settingParams "timeBetweenReqs" = true ->
     switch_captchaParams captchaType captchaParams t = (t, Next finalErr) ->
     malformed Unmarshal (Do t (capResultURL +:+ "&action=getBalance&key=" +:+ apiKey)) ->
     NewInstance Unmarshal Do (S fuel) apiKey captchaType captchaParams settingParams t =
     (t ++ [Request (capResultURL +:+ "&action=getBalance&key=" +:+ apiKey)],
      Returned (CaptchaInstance_zero, Some errUnmarshal))) /\
  (forall fuel instance c d taskStruct t,
     HTTPClient instance = Some c ->
     malformed Unmarshal (Do t (CreateTaskURL instance)) ->
     CreateTaskLoop Unmarshal Do (S fuel) instance d taskStruct t =
     (t ++ [Request (CreateTaskURL instance)], BreakOuter errUnmarshal)) /\
  (forall fuel instance c solution t,
     HTTPClient instance = Some c ->
     malformed Unmarshal (Do t (CreateTaskURL instance)) ->
     OuterLoop Unmarshal Do (S fuel) instance solution t =
     (t ++ [Request (CreateTaskURL instance)], Returned (solution, Some errUnmarshal))) /\
  (forall fuel instance c solution t t1 taskStruct url,
     HTTPClient instance = Some c ->
     CreateTaskLoop Unmarshal Do (S fuel) instance (timeToSleep instance)
       captchaResponse_zero t = (t1, Next (taskStruct, url)) ->
     malformed Unmarshal (Do t1 url) ->
     OuterLoop Unmarshal Do (S fuel) instance solution t =
     (t1 ++ [Request url], Returned (solution, Some errUnmarshal))).
Proof.
  repeat split.
  - intros fuel apiKey captchaType captchaParams settingParams finalErr t Hset Hsw Hbad.
    rewrite (NewInstance_validated Unmarshal Do fuel apiKey _ _ _ t _ Hset Hsw).
    rewrite Hbad. reflexivity.
  - intros fuel instance c d taskStruct t Hc Hbad.
    apply CreateTaskLoop_malformed with (c := c); [exact Hc | apply Hbad].
  - intros fuel instance c solution t Hc Hbad.
    apply OuterLoop_break. unfold OuterLoop_body, bind.
    rewrite (CreateTaskLoop_malformed Unmarshal Do _ instance c _ _ t Hc (Hbad _)).
    reflexivity.
  - intros fuel instance c solution t t1 taskStruct url Hc Hcreate Hbad.
    apply OuterLoop_break.
    rewrite (OuterLoop_body_created Unmarshal Do _ instance c t _ _ _ Hc Hcreate).
    rewrite Hbad. reflexivity.
Qed.

Lemma unparseable_response_is_fatal_witness :
  NewInstance Mock.Unmarshal (Mock.Do []) 1 "KEY" "recaptchaV2" Mock.v2_params
    Mock.settings [] =
  ([Request Mock.balance_url], Returned (CaptchaInstance_zero, Some errUnmarshal)) /\
  CreateTaskLoop Mock.Unmarshal (Mock.Do []) 1 Mock.instance 5000000000
    {| Status := 0; Response := "ERROR_NO_SLOT_AVAILABLE" |}
    [Request Mock.task_url; Sleep 5000000000] =
  ([Request Mock.task_url; Sleep 5000000000; Request Mock.task_url],
   BreakOuter errUnmarshal) /\
  SolveCaptcha Mock.Unmarshal (Mock.Do []) 1 Mock.instance [] =
  ([Request Mock.task_url], Returned (empty, Some errUnmarshal)) /\
  SolveCaptcha Mock.Unmarshal (Mock.Do [(Mock.task_url, [Mock.json 1 "abc123"])]) 1
    Mock.instance [] =
  ([Request Mock.task_url; Request (Mock.solution_url "abc123")],
   Returned (empty, Some errUnmarshal)).
Proof.
  split; [|split; [|split]].
  - destruct (unparseable_response_is_fatal Mock.Unmarshal (Mock.Do [])) as (Hbalance & _).
    apply (Hbalance 0%nat "KEY"%string "recaptchaV2"%string Mock.v2_params Mock.settings None []).
    + reflexivity.
    + reflexivity.
    + exact Mock_Unmarshal_empty.
  - destruct (unparseable_response_is_fatal Mock.Unmarshal (Mock.Do [])) as (_ & Hretry & _).
    apply (Hretry 0%nat Mock.instance Client 5000000000
             {| Status := 0; Response := "ERROR_NO_SLOT_AVAILABLE" |}
             [Request Mock.task_url; Sleep 5000000000]).
    + reflexivity.
    + exact Mock_Unmarshal_empty.
  - destruct (unparseable_response_is_fatal Mock.Unmarshal (Mock.Do [])) as (_ & _ & Htask & _).
    apply (Htask 0%nat Mock.instance Client empty []).
    + reflexivity.
    + exact Mock_Unmarshal_empty.
  - destruct (unparseable_response_is_fatal Mock.Unmarshal
                (Mock.Do [(Mock.task_url, [Mock.json 1 "abc123"])])) as (_ & _ & _ & Hpoll).
    apply (Hpoll 0%nat Mock.instance Client empty [] [Request Mock.task_url]
             {| Status := 1; Response := "abc123" |} (Mock.solution_url "abc123")).
    + reflexivity.
    + reflexivity.
    + exact Mock_Unmarshal_empty.
Defined.

(** C9: a response with status 0 whose code is not a key of [captchaErrors]
    is no error for [checkError]; the task loop then takes the code as the
    task id of the solution URL, and a turn whose poll decodes to such a
    response takes the code as its solution. *)
Theorem unknown_error_code_is_payload (code : string) :
  ~ In code (map fst captchaErrors) ->
  checkError {| Status := 0; Response := code |} = (empty, None) /\
  (forall Unmarshal Do fuel instance c d taskStruct t,
     HTTPClient instance = Some c ->
     Unmarshal (Do t (CreateTaskURL instance)) taskStruct =
     Some {| Status := 0; Response := code |} ->
     CreateTaskLoop Unmarshal Do (S fuel) instance d taskStruct t =
     (t ++ [Request (CreateTaskURL instance)],
      Next ({| Status := 0; Response := code |},
            capResultURL +:+ "&key=" +:+ APIKey instance +:+ "&action=get&id=" +:+ code))) /\
  (forall Unmarshal Do fuel instance c t t1 taskStruct url,
     HTTPClient instance = Some c ->
     CreateTaskLoop Unmarshal Do (S fuel) instance (timeToSleep instance)
       captchaResponse_zero t = (t1, Next (taskStruct, url)) ->
     Unmarshal (Do t1 url) captchaResponse_zero = Some {| Status := 0; Response := code |} ->
     OuterLoop_body Unmarshal Do (S fuel) instance t = (t1 ++ [Request url], Next code)).
Proof.
  intros Hunknown.
  assert (Hce : checkError {| Status := 0; Response := code |} = (empty, None)).
  { unfold checkError. cbn [Status Response Z.eqb].
    apply range_captchaErrors_unknown. exact Hunknown. }
  split; [exact Hce|]. split.
  - intros Unmarshal Do fuel instance c d taskStruct t Hc Hu.
    rewrite (CreateTaskLoop_created Unmarshal Do fuel instance c d taskStruct t _ Hc Hu).
    + reflexivity.
    + rewrite Hce. reflexivity.
  - intros Unmarshal Do fuel instance c t t1 taskStruct url Hc Hcreate Hu.
    rewrite (OuterLoop_body_created Unmarshal Do _ instance c t _ _ _ Hc Hcreate).
    rewrite Hu. reflexivity.
Qed.

Lemma unknown_error_code_is_payload_witness :
  checkError {| Status := 0; Response := "ERROR_PAGEURL" |} = (empty, None) /\
  CreateTaskLoop Mock.Unmarshal (Mock.Do Mock.unknown_code_script) 1 Mock.instance
    5000000000 captchaResponse_zero [] =
  ([Request Mock.task_url],
   Next ({| Status := 0; Response := "ERROR_PAGEURL" |}, Mock.solution_url "ERROR_PAGEURL")) /\
  OuterLoop_body Mock.Unmarshal (Mock.Do Mock.unknown_code_script) 1 Mock.instance [] =
  ([Request Mock.task_url; Request (Mock.solution_url "ERROR_PAGEURL")],
   Next "ERROR_PAGEURL"%string).
Proof.
  assert (Hunknown : ~ In "ERROR_PAGEURL"%string (map fst captchaErrors)).
  { simpl. intros H. repeat (destruct H as [H | H]; [discriminate H|]). exact H. }
  destruct (unknown_error_code_is_payload "ERROR_PAGEURL" Hunknown) as (Hce & Htask & Hpoll).
  split; [exact Hce|]. split.
  - apply (Htask Mock.Unmarshal (Mock.Do Mock.unknown_code_script) 0%nat Mock.instance Client
             5000000000 captchaResponse_zero []); reflexivity.
  - apply (Hpoll Mock.Unmarshal (Mock.Do Mock.unknown_code_script) 0%nat Mock.instance Client
             [] [Request Mock.task_url] {| Status := 0; Response := "ERROR_PAGEURL" |}
             (Mock.solution_url "ERROR_PAGEURL")); reflexivity.
Defined.

(** ** Further properties of the helpers *)

Lemma range_captchaErrors_None entries response key :
  range_captchaErrors entries response = (key, None) ->
  key = empty /\ ~ In response (map fst entries).
Proof.
  induction entries as [|[k v] rest IH]; simpl.
  - intros [= <-]. split; [reflexivity | intros []].
  - destruct (String.eqb_spec response k) as [->|Hne]; [discriminate|].
    intros H. destruct (IH H) as [-> Hnot]. split; [reflexivity|].
    intros [Heq|Hin]; [congruence | exact (Hnot Hin)].
Qed.

(** X1: [checkError] reports an error exactly when the status is 0 and the
    payload is a key of [captchaErrors]; it then returns that key and the
    error stored under it.  In every other case, and only then, it returns
    the empty key and nil. *)
Theorem checkError_spec responseStruct :
  (forall key err,
     checkError responseStruct = (key, Some err) <->
     Status responseStruct = 0 /\ key = Response responseStruct /\
     In (key, err) captchaErrors) /\
  (checkError responseStruct = (empty, None) <->
   Status responseStruct <> 0 \/
   ~ In (Response responseStruct) (map fst captchaErrors)).
Proof.
  split.
  - intros key err. split.
    + intros H. apply checkError_In in H. destruct H as (Hin & Hr & Hs). auto.
    + intros (Hs & -> & Hin). unfold checkError. rewrite Hs. cbn [Z.eqb].
      apply range_captchaErrors_found; [exact captchaErrors_keys_NoDup | exact Hin].
  - unfold checkError. destruct (Z.eqb_spec (Status responseStruct) 0) as [Hs|Hs].
    + destruct (range_captchaErrors captchaErrors (Response responseStruct))
        as [key [err|]] eqn:Hr.
      * apply range_captchaErrors_In in Hr. destruct Hr as [Hin ->].
        split; [discriminate|]. intros [Hne|Hnot]; [contradiction|].
        exfalso. apply Hnot. apply (in_map fst) in Hin. exact Hin.
      * apply range_captchaErrors_None in Hr. destruct Hr as [-> Hnot].
        split; [intros _; right; exact Hnot | reflexivity].
    + split; [intros _; left; exact Hs | reflexivity].
Qed.

(** X2: Go ranges over [captchaErrors] in an order that changes from run to
    run; whatever order the entries come in, the loop of [checkError] gives
    the result of [checkError]. *)
Theorem checkError_any_iteration_order entries responseStruct :
  Permutation captchaErrors entries ->
  (if Status responseStruct =? 0
   then range_captchaErrors entries (Response responseStruct)
   else (empty, None)) = checkError responseStruct.
Proof.
  intros Hperm. unfold checkError. destruct (Status responseStruct =? 0); [|reflexivity].
  apply range_captchaErrors_any_order. exact Hperm.
Qed.

Lemma checkError_any_iteration_order_witness :
  range_captchaErrors (rev captchaErrors) "IP_BANNED" =
  checkError {| Status := 0; Response := "IP_BANNED" |}.
Proof.
  apply (checkError_any_iteration_order (rev captchaErrors)
           {| Status := 0; Response := "IP_BANNED" |}).
  apply Permutation_rev.
Defined.

(** X3: [stringInSlice] answers true exactly for the members of the slice. *)
Theorem stringInSlice_In inputSlice key :
  stringInSlice inputSlice key = true <-> In key inputSlice.
Proof.
  induction inputSlice as [|item rest IH]; simpl.
  - split; [discriminate | intros []].
  - destruct (String.eqb_spec key item) as [->|Hne].
    + split; [intros _; left; reflexivity | reflexivity].
    + rewrite IH. split; [intros H; right; exact H|].
      intros [Heq|Hin]; [congruence | exact Hin].
Qed.

(** ** Further properties of NewInstance *)

Lemma forallb_keyInMap_ext params params' keys :
  (forall key, keyInMap params key = keyInMap params' key) ->
  forallb (keyInMap params) keys = forallb (keyInMap params') keys.
Proof.
  intros H. induction keys as [|key rest IH]; simpl; [reflexivity|].
  rewrite H, IH. reflexivity.
Qed.

(** For a valid type the first [switch] falls through exactly when every
    required key is present. *)
Lemma switch_captchaParams_table captchaType captchaParams t :
  stringInSlice validTypes captchaType = true ->
  exists finalErr,
    switch_captchaParams captchaType captchaParams t =
    if forallb (keyInMap captchaParams) (requiredKeys captchaType)
    then (t, Next finalErr)
    else (t, BreakOuter (errMissingParams captchaType)).
Proof.
  intros Hty.
  destruct (In_validTypes _ Hty) as [-> | [-> | ->]];
    unfold requiredKeys, errMissingParams, switch_captchaParams;
    cbn [String.eqb Ascii.eqb Bool.eqb forallb];
    repeat match goal with
           | |- context [keyInMap captchaParams ?k] => destruct (keyInMap captchaParams k)
           end;
    cbn [andb negb];
    try (eexists; reflexivity);
    try (exists None; reflexivity).
  destruct (stringInSlice validV3Scores (index captchaParams "minscore"));
    eexists; reflexivity.
Qed.

Lemma NewInstance_validated_0 Unmarshal Do apiKey captchaType captchaParams settingParams t
    finalErr :
  keyInMap settingParams "timeBetweenReqs" = true ->
  switch_captchaParams captchaType captchaParams t = (t, Next finalErr) ->
  NewInstance Unmarshal Do 0 apiKey captchaType captchaParams settingParams t = (t, Timeout).
Proof.
  intros H1 Hsw. destruct (switch_captchaParams_next _ _ _ _ _ Hsw) as [_ H2].
  unfold NewInstance, NewInstance_body. rewrite H1, H2. cbn [negb].
  unfold bind at 1. rewrite Hsw. reflexivity.
Qed.

Lemma NewInstance_switch_break Unmarshal Do fuel apiKey captchaType captchaParams
    settingParams t err :
  keyInMap settingParams "timeBetweenReqs" = true ->
  stringInSlice validTypes captchaType = true ->
  switch_captchaParams captchaType captchaParams t = (t, BreakOuter err) ->
  NewInstance Unmarshal Do fuel apiKey captchaType captchaParams settingParams t =
  (t, Returned (CaptchaInstance_zero, Some err)).
Proof.
  intros H1 H2 Hsw. unfold NewInstance, NewInstance_body. rewrite H1, H2. cbn [negb].
  unfold bind. rewrite Hsw. reflexivity.
Qed.

(** X4: [NewInstance] sends one request, the balance check for the given API
    key, exactly when the settings hold the poll-interval key, the type is
    valid and every required key of the type is present; otherwise it sends
    nothing.  It sends no other request and never sleeps. *)
Theorem NewInstance_trace Unmarshal Do fuel apiKey captchaType captchaParams settingParams t :
  fst (NewInstance Unmarshal Do (S fuel) apiKey captchaType captchaParams settingParams t) =
  if keyInMap settingParams "timeBetweenReqs" && stringInSlice validTypes captchaType &&
     forallb (keyInMap captchaParams) (requiredKeys captchaType)
  then t ++ [Request (capResultURL +:+ "&action=getBalance&key=" +:+ apiKey)]
  else t.
Proof.
  destruct (keyInMap settingParams "timeBetweenReqs") eqn:H1; cbn [andb].
  2:{ rewrite NewInstance_missing_setting by exact H1. reflexivity. }
  destruct (stringInSlice validTypes captchaType) eqn:H2; cbn [andb].
  2:{ rewrite NewInstance_invalid_type by assumption. reflexivity. }
  destruct (switch_captchaParams_table captchaType captchaParams t H2) as [finalErr Hsw].
  destruct (forallb (keyInMap captchaParams) (requiredKeys captchaType)).
  - rewrite (NewInstance_validated Unmarshal Do fuel apiKey _ _ _ t _ H1 Hsw). reflexivity.
  - rewrite (NewInstance_switch_break Unmarshal Do _ apiKey _ _ _ t _ H1 H2 Hsw). reflexivity.
Qed.

(** X5: when the balance response decodes to a status-0 struct whose payload
    is a key of [captchaErrors], [NewInstance] returns the error stored under
    that key (also for the two keys the table calls handled by the program),
    with the zero instance, after that one request. *)
Theorem NewInstance_balance_error Unmarshal Do fuel apiKey captchaType captchaParams
    settingParams t finalErr balanceStruct key err :
  keyInMap settingParams "timeBetweenReqs" = true ->
  switch_captchaParams captchaType captchaParams t = (t, Next finalErr) ->
  Unmarshal (Do t (capResultURL +:+ "&action=getBalance&key=" +:+ apiKey))
    captchaResponse_zero = Some balanceStruct ->
  checkError balanceStruct = (key, Some err) ->
  NewInstance Unmarshal Do (S fuel) apiKey captchaType captchaParams settingParams t =
  (t ++ [Request (capResultURL +:+ "&action=getBalance&key=" +:+ apiKey)],
   Returned (CaptchaInstance_zero, Some err)).
Proof.
  intros H1 Hsw Hu Hce.
  rewrite (NewInstance_validated Unmarshal Do fuel apiKey _ _ _ t _ H1 Hsw).
  rewrite Hu, Hce. reflexivity.
Qed.

Lemma NewInstance_balance_error_witness :
  NewInstance Mock.Unmarshal
    (Mock.Do [(Mock.balance_url, [Mock.json 0 "ERROR_KEY_DOES_NOT_EXIST"])]) 1
    "KEY" "funcaptcha" {[ "key" := "PUBLIC"; "surl" := "S"; "siteurl" := "PAGE" ]}%string
    Mock.settings [] =
  ([Request Mock.balance_url],
   Returned (CaptchaInstance_zero, Some (errors_New "invalid api key"))).
Proof.
  apply (NewInstance_balance_error Mock.Unmarshal
           (Mock.Do [(Mock.balance_url, [Mock.json 0 "ERROR_KEY_DOES_NOT_EXIST"])]) 0
           "KEY" "funcaptcha" {[ "key" := "PUBLIC"; "surl" := "S"; "siteurl" := "PAGE" ]}%string
           Mock.settings [] None {| Status := 0; Response := "ERROR_KEY_DOES_NOT_EXIST" |}
           "ERROR_KEY_DOES_NOT_EXIST"%string); reflexivity.
Defined.

(** X6: [NewInstance] reads the two maps only for which keys they hold: two
    calls whose parameter maps hold the same keys, and whose settings maps
    hold the same keys, return the same result and send the same requests,
    whatever the values (the score of recaptchaV3 included). *)
Theorem NewInstance_ignores_values Unmarshal Do fuel apiKey captchaType captchaParams
    captchaParams' settingParams settingParams' t :
  (forall key, keyInMap captchaParams key = keyInMap captchaParams' key) ->
  (forall key, keyInMap settingParams key = keyInMap settingParams' key) ->
  NewInstance Unmarshal Do fuel apiKey captchaType captchaParams settingParams t =
  NewInstance Unmarshal Do fuel apiKey captchaType captchaParams' settingParams' t.
Proof.
  intros Hp Hs.
  destruct (keyInMap settingParams "timeBetweenReqs") eqn:H1.
  2:{ rewrite !NewInstance_missing_setting; [reflexivity | rewrite <- Hs; exact H1 | exact H1]. }
  assert (H1' : keyInMap settingParams' "timeBetweenReqs" = true) by (rewrite <- Hs; exact H1).
  destruct (stringInSlice validTypes captchaType) eqn:H2.
  2:{ rewrite !NewInstance_invalid_type by assumption. reflexivity. }
  destruct (switch_captchaParams_table captchaType captchaParams t H2) as [finalErr Hsw].
  destruct (switch_captchaParams_table captchaType captchaParams' t H2) as [finalErr' Hsw'].
  rewrite <- (forallb_keyInMap_ext _ _ _ Hp) in Hsw'.
  destruct (forallb (keyInMap captchaParams) (requiredKeys captchaType)).
  - destruct fuel as [|fuel].
    + rewrite (NewInstance_validated_0 Unmarshal Do apiKey _ _ _ t _ H1 Hsw).
      rewrite (NewInstance_validated_0 Unmarshal Do apiKey _ _ _ t _ H1' Hsw').
      reflexivity.
    + rewrite (NewInstance_validated Unmarshal Do fuel apiKey _ _ _ t _ H1 Hsw).
      rewrite (NewInstance_validated Unmarshal Do fuel apiKey _ _ _ t _ H1' Hsw').
      reflexivity.
  - rewrite (NewInstance_switch_break Unmarshal Do _ apiKey _ _ _ t _ H1 H2 Hsw).
    rewrite (NewInstance_switch_break Unmarshal Do _ apiKey _ _ _ t _ H1' H2 Hsw').
    reflexivity.
Qed.

Lemma keyInMap_fmap (f : string -> string) (m : gmap string string) key :
  keyInMap m key = keyInMap (f <$> m) key.
Proof. unfold keyInMap. rewrite lookup_fmap. destruct (m !! key); reflexivity. Qed.

Lemma NewInstance_ignores_values_witness :
  NewInstance Mock.Unmarshal (Mock.Do [(Mock.balance_url, [Mock.json 1 "12.5"])]) 1
    "KEY" "recaptchaV3" (Mock.v3_params ".3") Mock.settings [] =
  NewInstance Mock.Unmarshal (Mock.Do [(Mock.balance_url, [Mock.json 1 "12.5"])]) 1
    "KEY" "recaptchaV3" ((fun _ => empty) <$> Mock.v3_params ".3")
    ((fun _ => "soon"%string) <$> Mock.settings) [].
Proof.
  apply (NewInstance_ignores_values Mock.Unmarshal
           (Mock.Do [(Mock.balance_url, [Mock.json 1 "12.5"])]) 1 "KEY" "recaptchaV3"
           (Mock.v3_params ".3") ((fun _ => empty) <$> Mock.v3_params ".3")
           Mock.settings ((fun _ => "soon"%string) <$> Mock.settings) []).
  - intros key. apply keyInMap_fmap.
  - intros key. apply keyInMap_fmap.
Defined.

(** ** Further properties of SolveCaptcha *)

Lemma CreateTaskLoop_fatal Unmarshal Do fuel instance c d taskStruct t decoded key err :
  HTTPClient instance = Some c ->
  Unmarshal (Do t (CreateTaskURL instance)) taskStruct = Some decoded ->
  checkError decoded = (key, Some err) ->
  key <> "ERROR_NO_SLOT_AVAILABLE"%string ->
  CreateTaskLoop Unmarshal Do (S fuel) instance d taskStruct t =
  (t ++ [Request (CreateTaskURL instance)], BreakOuter err).
Proof.
  intros Hc Hu Hce Hkey. cbn [CreateTaskLoop]. unfold bind.
  rewrite Hc, requestLoop_S, Hu, Hce.
  destruct (String.eqb_spec key "ERROR_NO_SLOT_AVAILABLE"); [contradiction|reflexivity].
Qed.

Lemma OuterLoop_body_break Unmarshal Do fuel instance t t' err :
  CreateTaskLoop Unmarshal Do fuel instance (timeToSleep instance) captchaResponse_zero t =
  (t', BreakOuter err) ->
  OuterLoop_body Unmarshal Do fuel instance t = (t', BreakOuter err).
Proof. intros H. unfold OuterLoop_body, bind. rewrite H. reflexivity. Qed.

(** X7: at any turn, a task-creation response that decodes to a status-0
    struct whose payload is a key of [captchaErrors] other than
    ERROR_NO_SLOT_AVAILABLE ends [SolveCaptcha]: it returns the error stored
    under the key right after that request, without sleeping. *)
Theorem SolveCaptcha_task_error_is_fatal Unmarshal Do fuel instance c solution t decoded
    key err :
  HTTPClient instance = Some c ->
  Unmarshal (Do t (CreateTaskURL instance)) captchaResponse_zero = Some decoded ->
  checkError decoded = (key, Some err) ->
  key <> "ERROR_NO_SLOT_AVAILABLE"%string ->
  OuterLoop Unmarshal Do (S fuel) instance solution t =
  (t ++ [Request (CreateTaskURL instance)], Returned (solution, Some err)) /\
  SolveCaptcha Unmarshal Do (S fuel) instance t =
  (t ++ [Request (CreateTaskURL instance)], Returned (empty, Some err)).
Proof.
  intros Hc Hu Hce Hkey.
  assert (H : forall sol, OuterLoop Unmarshal Do (S fuel) instance sol t =
                          (t ++ [Request (CreateTaskURL instance)], Returned (sol, Some err))).
  { intros sol. apply OuterLoop_break. apply OuterLoop_body_break.
    apply CreateTaskLoop_fatal with (c := c) (decoded := decoded) (key := key); assumption. }
  split; [apply H | apply (H empty)].
Qed.

Lemma SolveCaptcha_task_error_is_fatal_witness :
  OuterLoop Mock.Unmarshal (Mock.Do [(Mock.task_url, [Mock.json 0 "ERROR_ZERO_BALANCE"])]) 1
    Mock.instance "OLD" [] =
  ([Request Mock.task_url],
   Returned ("OLD"%string, Some (errors_New "[in] empty account balance"))) /\
  SolveCaptcha Mock.Unmarshal (Mock.Do [(Mock.task_url, [Mock.json 0 "ERROR_ZERO_BALANCE"])])
    1 Mock.instance [] =
  ([Request Mock.task_url],
   Returned (empty, Some (errors_New "[in] empty account balance"))).
Proof.
  apply (SolveCaptcha_task_error_is_fatal Mock.Unmarshal
           (Mock.Do [(Mock.task_url, [Mock.json 0 "ERROR_ZERO_BALANCE"])]) 0 Mock.instance
           Client "OLD" [] {| Status := 0; Response := "ERROR_ZERO_BALANCE" |}
           "ERROR_ZERO_BALANCE"%string).
  - reflexivity.
  - reflexivity.
  - reflexivity.
  - discriminate.
Defined.

(** The task loop against a service that keeps answering
    ERROR_NO_SLOT_AVAILABLE: every unit of fuel buys one request and one
    sleep, and the loop is still running when the fuel is used up. *)
Lemma CreateTaskLoop_no_slot_forever Unmarshal Do instance c d :
  HTTPClient instance = Some c ->
  (forall t target,
     Unmarshal (Do t (CreateTaskURL instance)) target =
     Some {| Status := 0; Response := "ERROR_NO_SLOT_AVAILABLE" |}) ->
  forall fuel taskStruct t,
    CreateTaskLoop Unmarshal Do fuel instance d taskStruct t =
    (t ++ concat (repeat [Request (CreateTaskURL instance); Sleep d] fuel), OutOfFuel).
Proof.
  intros Hc Hbusy. induction fuel as [|fuel IH]; intros taskStruct t.
  - simpl. rewrite app_nil_r. reflexivity.
  - rewrite (CreateTaskLoop_no_slot Unmarshal Do fuel instance c d taskStruct t
               {| Status := 0; Response := "ERROR_NO_SLOT_AVAILABLE" |}
               (errors_New "handled by program") Hc (Hbusy _ _) eq_refl).
    rewrite IH. cbn [repeat concat]. rewrite <- !app_assoc. reflexivity.
Qed.

(** X8: the retry on ERROR_NO_SLOT_AVAILABLE has no bound.  Against a service
    whose task endpoint always answers with that code, no amount of fuel
    makes [SolveCaptcha] return: [n] units of fuel give [n] requests, each
    followed by a sleep of the poll interval, and the call is still running. *)
Theorem SolveCaptcha_no_slot_never_returns Unmarshal Do instance c t :
  HTTPClient instance = Some c ->
  (forall t' target,
     Unmarshal (Do t' (CreateTaskURL instance)) target =
     Some {| Status := 0; Response := "ERROR_NO_SLOT_AVAILABLE" |}) ->
  forall fuel,
    SolveCaptcha Unmarshal Do fuel instance t =
    (t ++ concat (repeat [Request (CreateTaskURL instance); Sleep (timeToSleep instance)] fuel),
     Timeout).
Proof.
  intros Hc Hbusy fuel. unfold SolveCaptcha. destruct fuel as [|fuel].
  - simpl. rewrite app_nil_r. reflexivity.
  - cbn [OuterLoop]. unfold OuterLoop_body, bind.
    rewrite (CreateTaskLoop_no_slot_forever Unmarshal Do instance c _ Hc Hbusy).
    reflexivity.
Qed.

Lemma SolveCaptcha_no_slot_never_returns_witness :
  SolveCaptcha Mock.Unmarshal (fun _ _ => Mock.json 0 "ERROR_NO_SLOT_AVAILABLE") 3
    Mock.instance [] =
  ([Request Mock.task_url; Sleep 5000000000; Request Mock.task_url; Sleep 5000000000;
    Request Mock.task_url; Sleep 5000000000],
   Timeout).
Proof.
  apply (SolveCaptcha_no_slot_never_returns Mock.Unmarshal
           (fun _ _ => Mock.json 0 "ERROR_NO_SLOT_AVAILABLE") Mock.instance Client []).
  - reflexivity.
  - intros t' target. reflexivity.
Defined.

(** X9: the solution returned with an error is not always the empty string.
    When a turn creates a task and its poll decodes to [polled], and the body
    answered to the next task-creation request does not decode,
    [SolveCaptcha] returns the payload of [polled] together with the
    unmarshalling error. *)
Theorem SolveCaptcha_returns_last_payload Unmarshal Do fuel instance c t taskID polled :
  HTTPClient instance = Some c ->
  Unmarshal (Do t (CreateTaskURL instance)) captchaResponse_zero =
  Some {| Status := 1; Response := taskID |} ->
  Unmarshal (Do (t ++ [Request (CreateTaskURL instance)])
               (checkSolutionURL_for instance taskID)) captchaResponse_zero = Some polled ->
  malformed Unmarshal
    (Do (t ++ [Request (CreateTaskURL instance);
               Request (checkSolutionURL_for instance taskID)])
        (CreateTaskURL instance)) ->
  SolveCaptcha Unmarshal Do (S (S fuel)) instance t =
  (t ++ [Request (CreateTaskURL instance); Request (checkSolutionURL_for instance taskID);
         Request (CreateTaskURL instance)],
   Returned (Response polled, Some errUnmarshal)).
Proof.
  intros Hc Htask Hpoll Hbad. unfold SolveCaptcha.
  assert (Hloop : CreateTaskLoop Unmarshal Do (S (S fuel)) instance (timeToSleep instance)
                    captchaResponse_zero t =
                  (t ++ [Request (CreateTaskURL instance)],
                   Next ({| Status := 1; Response := taskID |},
                         checkSolutionURL_for instance taskID))).
  { apply CreateTaskLoop_created with (c := c); [exact Hc | exact Htask | reflexivity]. }
  pose proof (OuterLoop_body_created Unmarshal Do _ instance c t _ _ _ Hc Hloop) as Hturn.
  rewrite Hpoll, <- app_assoc in Hturn. cbn [app] in Hturn.
  rewrite (OuterLoop_next Unmarshal Do _ instance empty t _ _ Hturn).
  rewrite (OuterLoop_break Unmarshal Do fuel instance (Response polled) _
             ((t ++ [Request (CreateTaskURL instance);
                     Request (checkSolutionURL_for instance taskID)]) ++
              [Request (CreateTaskURL instance)]) errUnmarshal).
  - rewrite <- app_assoc. reflexivity.
  - apply OuterLoop_body_break.
    apply CreateTaskLoop_malformed with (c := c); [exact Hc | apply Hbad].
Qed.

Lemma SolveCaptcha_returns_last_payload_witness :
  SolveCaptcha Mock.Unmarshal
    (Mock.Do [(Mock.task_url, [Mock.json 1 "abc123"]);
              (Mock.solution_url "abc123", [Mock.json 1 "TOKEN"])]) 2 Mock.instance [] =
  ([Request Mock.task_url; Request (Mock.solution_url "abc123"); Request Mock.task_url],
   Returned ("TOKEN"%string, Some errUnmarshal)).
Proof.
  apply (SolveCaptcha_returns_last_payload Mock.Unmarshal
           (Mock.Do [(Mock.task_url, [Mock.json 1 "abc123"]);
                     (Mock.solution_url "abc123", [Mock.json 1 "TOKEN"])])
           0 Mock.instance Client [] "abc123" {| Status := 1; Response := "TOKEN" |}).
  - reflexivity.
  - reflexivity.
  - reflexivity.
  - exact Mock_Unmarshal_empty.
Defined.

(** X10: a solved captcha does not end the call.  Against a service whose task
    endpoint always answers with a task id (status 1) and whose solution URL
    for that id always decodes, no amount of fuel makes [SolveCaptcha] return:
    [n] units of fuel give [n] turns, each one task creation and one poll,
    without any sleep. *)
Theorem SolveCaptcha_success_never_returns Unmarshal Do instance c taskID polled :
  HTTPClient instance = Some c ->
  (forall t target,
     Unmarshal (Do t (CreateTaskURL instance)) target =
     Some {| Status := 1; Response := taskID |}) ->
  (forall t,
     Unmarshal (Do t (checkSolutionURL_for instance taskID)) captchaResponse_zero =
     Some polled) ->
  forall fuel t,
    SolveCaptcha Unmarshal Do fuel instance t =
    (t ++ concat (repeat [Request (CreateTaskURL instance);
                          Request (checkSolutionURL_for instance taskID)] fuel),
     Timeout).
Proof.
  intros Hc Htask Hpoll fuel. unfold SolveCaptcha. generalize empty as solution.
  induction fuel as [|fuel IH]; intros solution t.
  - simpl. rewrite app_nil_r. reflexivity.
  - assert (Hloop : CreateTaskLoop Unmarshal Do (S fuel) instance (timeToSleep instance)
                      captchaResponse_zero t =
                    (t ++ [Request (CreateTaskURL instance)],
                     Next ({| Status := 1; Response := taskID |},
                           checkSolutionURL_for instance taskID))).
    { apply CreateTaskLoop_created with (c := c); [exact Hc | apply Htask | reflexivity]. }
    pose proof (OuterLoop_body_created Unmarshal Do _ instance c t _ _ _ Hc Hloop) as Hturn.
    rewrite Hpoll in Hturn.
    rewrite (OuterLoop_next Unmarshal Do _ instance solution t _ _ Hturn).
    rewrite IH. cbn [repeat concat]. rewrite <- !app_assoc. reflexivity.
Qed.

Lemma SolveCaptcha_success_never_returns_witness :
  SolveCaptcha Mock.Unmarshal
    (fun _ url => if String.eqb url Mock.task_url then Mock.json 1 "abc123"
                  else Mock.json 1 "TOKEN") 2 Mock.instance [] =
  ([Request Mock.task_url; Request (Mock.solution_url "abc123");
    Request Mock.task_url; Request (Mock.solution_url "abc123")],
   Timeout).
Proof.
  apply (SolveCaptcha_success_never_returns Mock.Unmarshal
           (fun _ url => if String.eqb url Mock.task_url then Mock.json 1 "abc123"
                         else Mock.json 1 "TOKEN")
           Mock.instance Client "abc123" {| Status := 1; Response := "TOKEN" |}).
  - reflexivity.
  - intros t target. reflexivity.
  - intros t. reflexivity.
Defined.

Lemma requests_to_retry url d t :
  requests_to url (t ++ [Request url; Sleep d]) = S (requests_to url t).
Proof.
  change [Request url; Sleep d] with ([Request url] ++ [Sleep d]).
  rewrite !requests_to_app, requests_to_request, String.eqb_refl.
  change (requests_to url [Sleep d]) with 0%nat. lia.
Qed.

Lemma CreateTaskLoop_retries_from Unmarshal Do instance c d k created :
  HTTPClient instance = Some c ->
  (forall t target,
     (requests_to (CreateTaskURL instance) t < k)%nat ->
     Unmarshal (Do t (CreateTaskURL instance)) target =
     Some {| Status := 0; Response := "ERROR_NO_SLOT_AVAILABLE" |}) ->
  (forall t target,
     requests_to (CreateTaskURL instance) t = k ->
     Unmarshal (Do t (CreateTaskURL instance)) target = Some created) ->
  snd (checkError created) = None ->
  forall m fuel taskStruct t,
    (requests_to (CreateTaskURL instance) t + m = k)%nat ->
    CreateTaskLoop Unmarshal Do (S (m + fuel)) instance d taskStruct t =
    (t ++ concat (repeat [Request (CreateTaskURL instance); Sleep d] m) ++
       [Request (CreateTaskURL instance)],
     Next (created, checkSolutionURL_for instance (Response created))).
Proof.
  intros Hc Hbusy Hfree Hok. induction m as [|m IH]; intros fuel taskStruct t Hcount.
  - apply CreateTaskLoop_created with (c := c); [exact Hc | | exact Hok].
    apply Hfree. lia.
  - cbn [Nat.add].
    rewrite (CreateTaskLoop_no_slot Unmarshal Do _ instance c d taskStruct t
               {| Status := 0; Response := "ERROR_NO_SLOT_AVAILABLE" |}
               (errors_New "handled by program") Hc); [| apply Hbusy; lia | reflexivity].
    rewrite IH by (rewrite requests_to_retry; lia).
    cbn [repeat concat]. rewrite <- !app_assoc. reflexivity.
Qed.

(** X11: the task loop waits as long as the service is busy.  When the first
    [k] task-creation requests are answered ERROR_NO_SLOT_AVAILABLE (status
    0) and the next one decodes to a struct [checkError] accepts, the loop
    sends [k + 1] requests with a sleep of the poll interval after each of the
    first [k], and builds the solution URL from the payload of the last. *)
Theorem CreateTaskLoop_retries Unmarshal Do instance c d k fuel t created :
  HTTPClient instance = Some c ->
  requests_to (CreateTaskURL instance) t = 0%nat ->
  (forall t' target,
     (requests_to (CreateTaskURL instance) t' < k)%nat ->
     Unmarshal (Do t' (CreateTaskURL instance)) target =
     Some {| Status := 0; Response := "ERROR_NO_SLOT_AVAILABLE" |}) ->
  (forall t' target,
     requests_to (CreateTaskURL instance) t' = k ->
     Unmarshal (Do t' (CreateTaskURL instance)) target = Some created) ->
  snd (checkError created) = None ->
  CreateTaskLoop Unmarshal Do (S (k + fuel)) instance d captchaResponse_zero t =
  (t ++ concat (repeat [Request (CreateTaskURL instance); Sleep d] k) ++
     [Request (CreateTaskURL instance)],
   Next (created, checkSolutionURL_for instance (Response created))).
Proof.
  intros Hc Ht Hbusy Hfree Hok.
  apply (CreateTaskLoop_retries_from Unmarshal Do instance c d k created Hc Hbusy Hfree Hok).
  rewrite Ht. reflexivity.
Qed.

Lemma CreateTaskLoop_retries_witness :
  CreateTaskLoop Mock.Unmarshal
    (Mock.Do [(Mock.task_url,
               [Mock.json 0 "ERROR_NO_SLOT_AVAILABLE"; Mock.json 0 "ERROR_NO_SLOT_AVAILABLE";
                Mock.json 1 "abc123"])])
    3 Mock.instance 5000000000 captchaResponse_zero [] =
  ([Request Mock.task_url; Sleep 5000000000; Request Mock.task_url; Sleep 5000000000;
    Request Mock.task_url],
   Next ({| Status := 1; Response := "abc123" |}, Mock.solution_url "abc123")).
Proof.
  apply (CreateTaskLoop_retries Mock.Unmarshal
           (Mock.Do [(Mock.task_url,
                      [Mock.json 0 "ERROR_NO_SLOT_AVAILABLE";
                       Mock.json 0 "ERROR_NO_SLOT_AVAILABLE"; Mock.json 1 "abc123"])])
           Mock.instance Client 5000000000 2 0 [] {| Status := 1; Response := "abc123" |}).
  - reflexivity.
  - reflexivity.
  - intros t' target Hlt. unfold Mock.Do.
    destruct (requests_to (CreateTaskURL Mock.instance) t') as [|[|n]];
      [reflexivity | reflexivity | lia].
  - intros t' target Heq. unfold Mock.Do. rewrite Heq. reflexivity.
  - reflexivity.
Defined.

Lemma grows_by_refl P t : grows_by P t t.
Proof. exists []. split; [symmetry; apply app_nil_r | constructor]. Qed.

Lemma grows_by_trans P t1 t2 t3 : grows_by P t1 t2 -> grows_by P t2 t3 -> grows_by P t1 t3.
Proof.
  intros (r1 & -> & H1) (r2 & -> & H2). exists (r1 ++ r2).
  split; [rewrite <- app_assoc; reflexivity | apply Forall_app; split; assumption].
Qed.

Lemma grows_by_one (P : event -> Prop) t e : P e -> grows_by P t (t ++ [e]).
Proof. intros H. exists [e]. split; [reflexivity | constructor; [exact H | constructor]]. Qed.

Lemma bind_grows {A B} P (m : M A) (k : A -> M B) t0 t :
  grows_by P t0 (fst (m t)) ->
  (forall a t', m t = (t', Next a) -> grows_by P t' (fst (k a t'))) ->
  grows_by P t0 (fst (bind m k t)).
Proof.
  intros Hm Hk. unfold bind. destruct (m t) as [t' [a| e | |]] eqn:Hmt; simpl in *;
    try exact Hm.
  eapply grows_by_trans; [exact Hm | apply Hk; reflexivity].
Qed.

Lemma requestLoop_grows Unmarshal Do P fuel client url target t :
  P (Request url) ->
  grows_by P t (fst (requestLoop Unmarshal Do fuel client url target t)).
Proof.
  intros HP. destruct fuel as [|fuel]; [apply grows_by_refl|].
  destruct client as [c|]; [|apply grows_by_refl].
  rewrite requestLoop_S. apply grows_by_one. exact HP.
Qed.

Lemma CreateTaskLoop_grows Unmarshal Do fuel instance taskStruct t :
  grows_by (solve_event instance) t
    (fst (CreateTaskLoop Unmarshal Do fuel instance (timeToSleep instance) taskStruct t)).
Proof.
  revert taskStruct t. induction fuel as [|fuel IH]; intros taskStruct t;
    [apply grows_by_refl|].
  cbn [CreateTaskLoop]. apply bind_grows.
  - apply requestLoop_grows. left. reflexivity.
  - intros a t' _. destruct (checkError a) as [errKey [err|]]; [|apply grows_by_refl].
    destruct (String.eqb errKey "ERROR_NO_SLOT_AVAILABLE"); [|apply grows_by_refl].
    apply bind_grows; [apply grows_by_one; reflexivity | intros; apply IH].
Qed.

Lemma SolutionLoop_grows Unmarshal Do fuel instance taskStruct captchaTaskID t :
  grows_by (solve_event instance) t
    (fst (SolutionLoop Unmarshal Do fuel instance (timeToSleep instance) taskStruct
            (checkSolutionURL_for instance captchaTaskID) t)).
Proof.
  revert t. induction fuel as [|fuel IH]; intros t; [apply grows_by_refl|].
  cbn [SolutionLoop]. apply bind_grows.
  - apply requestLoop_grows. right. exists captchaTaskID. reflexivity.
  - intros a t' _. destruct (checkError taskStruct) as [errKey [err|]]; [|apply grows_by_refl].
    destruct (String.eqb errKey "CAPCHA_NOT_READY"); [|apply grows_by_refl].
    apply bind_grows; [apply grows_by_one; reflexivity | intros; apply IH].
Qed.

Lemma OuterLoop_grows Unmarshal Do fuel instance solution t :
  grows_by (solve_event instance) t (fst (OuterLoop Unmarshal Do fuel instance solution t)).
Proof.
  revert solution t. induction fuel as [|fuel IH]; intros solution t; [apply grows_by_refl|].
  assert (Hb : grows_by (solve_event instance) t
                 (fst (OuterLoop_body Unmarshal Do (S fuel) instance t))).
  { unfold OuterLoop_body. apply bind_grows; [apply CreateTaskLoop_grows|].
    intros [created url] t' Hcreate. apply CreateTaskLoop_next in Hcreate.
    destruct Hcreate as [_ ->]. apply SolutionLoop_grows. }
  cbn [OuterLoop].
  destruct (OuterLoop_body Unmarshal Do (S fuel) instance t) as [t' [s| e | |]];
    simpl in *; try exact Hb.
  eapply grows_by_trans; [exact Hb | apply IH].
Qed.

(** X12: whatever the service answers and however long the call runs,
    [SolveCaptcha] only adds to the trace requests to the task URL of the
    instance and to solution URLs (result endpoint, the API key of the
    instance, action=get and some id), and sleeps of the poll interval of the
    instance; what was in the trace before stays as it was. *)
Theorem SolveCaptcha_events Unmarshal Do fuel instance t :
  grows_by (solve_event instance) t (fst (SolveCaptcha Unmarshal Do fuel instance t)).
Proof. unfold SolveCaptcha. apply OuterLoop_grows. Qed.

(** X13: the duration [SolveCaptcha] sleeps is always a 64-bit value: the
    number [Atoi] returns for the setting (its error is dropped), times
    [time.Second], wrapped around.  It is that number of seconds, in
    nanoseconds, if and only if the number is at most 9223372036 either way.
    An instance whose settings lack the key, or hold a value with a syntax
    error, sleeps for 0; a value out of the range of [int] does not (it reads
    as the nearest [int], and the product wraps). *)
Theorem timeToSleep_seconds instance :
  - 2 ^ 63 <= timeToSleep instance < 2 ^ 63 /\
  (forall seconds ok,
     Atoi (index (SettingInfo instance) "timeBetweenReqs") = (seconds, ok) ->
     timeToSleep instance = wrap64 (seconds * 1000000000) /\
     (timeToSleep instance = seconds * 1000000000 <->
      - 9223372036 <= seconds <= 9223372036)) /\
  (keyInMap (SettingInfo instance) "timeBetweenReqs" = false -> timeToSleep instance = 0) /\
  (Atoi (index (SettingInfo instance) "timeBetweenReqs") = (0, false) ->
   timeToSleep instance = 0).
Proof.
  split; [|split; [|split]].
  - unfold timeToSleep, Duration_mul. apply wrap64_range.
  - intros seconds ok Hatoi.
    assert (Hw : timeToSleep instance = wrap64 (seconds * 1000000000)).
    { unfold timeToSleep, Duration_mul, time_Second. rewrite Hatoi. cbn [fst].
      rewrite Z.mul_comm. reflexivity. }
    split; [exact Hw|]. split.
    + intros Heq. rewrite Hw in Heq.
      pose proof (wrap64_range (seconds * 1000000000)) as Hr. rewrite Heq in Hr. lia.
    + intros Hrange. rewrite Hw. apply wrap64_small. lia.
  - unfold keyInMap, timeToSleep, index.
    destruct (SettingInfo instance !! "timeBetweenReqs"%string); [discriminate|].
    intros _. reflexivity.
  - intros Hatoi. unfold timeToSleep. rewrite Hatoi. reflexivity.
Qed.

Lemma timeToSleep_seconds_witness :
  timeToSleep Mock.instance = 5 * 1000000000 /\
  timeToSleep {| APIKey := "KEY"; CaptchaType := "recaptchaV2"; CreateTaskURL := Mock.task_url;
                 SettingInfo := {[ "timeBetweenReqs" := "18446744074" ]}%string;
                 HTTPClient := Some Client |} = wrap64 (18446744074 * 1000000000) /\
  timeToSleep {| APIKey := "KEY"; CaptchaType := "recaptchaV2"; CreateTaskURL := Mock.task_url;
                 SettingInfo := {[ "timeBetweenReqs" := "9223372036854775808" ]}%string;
                 HTTPClient := Some Client |} = wrap64 (maxInt64 * 1000000000) /\
  timeToSleep CaptchaInstance_zero = 0 /\
  timeToSleep {| APIKey := "KEY"; CaptchaType := "recaptchaV2"; CreateTaskURL := Mock.task_url;
                 SettingInfo := {[ "timeBetweenReqs" := "soon" ]}%string;
                 HTTPClient := Some Client |} = 0.
Proof.
  split; [|split; [|split; [|split]]].
  - destruct (timeToSleep_seconds Mock.instance) as (_ & Hread & _).
    destruct (Hread 5 true eq_refl) as [_ [_ Hexact]]. apply Hexact. lia.
  - destruct (timeToSleep_seconds
                {| APIKey := "KEY"; CaptchaType := "recaptchaV2";
                   CreateTaskURL := Mock.task_url;
                   SettingInfo := {[ "timeBetweenReqs" := "18446744074" ]}%string;
                   HTTPClient := Some Client |}) as (_ & Hread & _).
    destruct (Hread 18446744074 true eq_refl) as [Hwrap _]. exact Hwrap.
  - destruct (timeToSleep_seconds
                {| APIKey := "KEY"; CaptchaType := "recaptchaV2";
                   CreateTaskURL := Mock.task_url;
                   SettingInfo := {[ "timeBetweenReqs" := "9223372036854775808" ]}%string;
                   HTTPClient := Some Client |}) as (_ & Hread & _).
    destruct (Hread maxInt64 false eq_refl) as [Hwrap _]. exact Hwrap.
  - destruct (timeToSleep_seconds CaptchaInstance_zero) as (_ & _ & Hmissing & _).
    apply Hmissing. reflexivity.
  - destruct (timeToSleep_seconds
                {| APIKey := "KEY"; CaptchaType := "recaptchaV2";
                   CreateTaskURL := Mock.task_url;
                   SettingInfo := {[ "timeBetweenReqs" := "soon" ]}%string;
                   HTTPClient := Some Client |}) as (_ & _ & _ & Hsyntax).
    apply Hsyntax. reflexivity.
Defined.

(** The two wrapped values of the example above, computed: one third of a
    second for 18446744074 seconds, and one second backwards for a value
    beyond the range of [int]. *)
Example timeToSleep_wrapped_values :
  wrap64 (18446744074 * 1000000000) = 290448384 /\
  wrap64 (maxInt64 * 1000000000) = - 1000000000.
Proof. split; reflexivity. Qed.
